(** * mem0-bridge.py: a shallow embedding of the AutoWeave memory bridge

    The program is a command-line bridge: [main] reads a configuration from
    the environment, constructs a [Mem0Bridge] around the external [Memory]
    client and maps one command of [sys.argv] to one method call, whose
    result envelope is printed as JSON on standard output.

    Everything outside the source file is a field of [World]: the process
    environment, the clock, [json.loads], [Memory.from_config] together with
    the client it returns, the HTTP probe of [requests], and the answer of
    [int] on the texts that are not modelled here.  Python objects
    are the values of [pyval]; the one object the source mutates, the
    metadata dictionary of [add_memory], lives in a heap of dictionaries so
    that the caller's alias sees the update; the client answers a call with
    a value or an exception and is taken not to change the objects it is
    handed.  Methods run in a state and
    exception monad [M]; its state also records the calls made on the client
    and the documents printed on standard output.  Logging goes to standard
    error and is not recorded, but an expression evaluated for a log line
    that can raise (the [len] of a result) is evaluated. *)

From stdpp Require Import gmap strings list pretty.
From Stdlib Require Import ZArith Ascii String.

Local Open Scope string_scope.
Set Warnings "-register-all".

(** ** Python values and exceptions *)

(** A dictionary keeps its insertion order, which [json.dumps] follows. A
    [str] is held as its UTF-8 encoding. [VObj c t n] is an object of a
    class outside the types of JSON: [c] is its [__class__.__name__], [t]
    the type name the interpreter writes in its error messages (with the
    module for a built-in class, as in [datetime.datetime]) and [n] its
    [len], when it has one; such an object has no JSON form and no [update]
    method. *)
Inductive pyval : Type :=
  | VNone
  | VBool (b : bool)
  | VInt (z : Z)
  | VFloat (repr : string)
  | VStr (s : string)
  | VList (l : list pyval)
  | VDict (d : list (string * pyval))
  | VObj (cls_name tp_name : string) (length : option nat).

Abbreviation dict := (list (string * pyval)).

Inductive exc_class : Type :=
  | ValueError
  | RuntimeError
  | TypeError
  | AttributeError
  | IndexError
  | JSONDecodeError
  | OtherException (name : string).

(** [exc_msg e] is [str(e)]. Only subclasses of [Exception] are modelled. *)
Record pyexc : Type := Exc { exc_cls : exc_class; exc_msg : string }.

Inductive res (A : Type) : Type :=
  | Ok (a : A)
  | Raise (e : pyexc).
Arguments Ok {A} a.
Arguments Raise {A} e.

Definition take_string (n : nat) (s : string) : string :=
  string_of_list_ascii (take n (list_ascii_of_string s)).

(** The type name in the message of an [AttributeError], which holds at most
    100 characters of it. *)
Definition py_type_name (v : pyval) : string :=
  match v with
  | VNone => "NoneType"
  | VBool _ => "bool"
  | VInt _ => "int"
  | VFloat _ => "float"
  | VStr _ => "str"
  | VList _ => "list"
  | VDict _ => "dict"
  | VObj _ t _ => take_string 100 t
  end.

(** The type name in the message of [len], which holds at most 200
    characters of it. *)
Definition len_type_name (v : pyval) : string :=
  match v with
  | VObj _ t _ => take_string 200 t
  | _ => py_type_name v
  end.

(** ** Dictionaries *)

Fixpoint dict_get (k : string) (d : dict) : option pyval :=
  match d with
  | [] => None
  | (k', v) :: r => if String.eqb k k' then Some v else dict_get k r
  end.

(** [d[k] = v]: an existing key keeps its place, a new key goes last. *)
Fixpoint dict_set (k : string) (v : pyval) (d : dict) : dict :=
  match d with
  | [] => [(k, v)]
  | (k', v') :: r =>
      if String.eqb k k' then (k', v) :: r else (k', v') :: dict_set k v r
  end.

(** [d.update(other)], with [other] taken in its own order. *)
Definition dict_update (d other : dict) : dict :=
  fold_left (fun acc kv => dict_set (fst kv) (snd kv) acc) other d.

Definition has_key (k : string) (d : dict) : bool :=
  match dict_get k d with Some _ => true | None => false end.

(** ** Builtins *)

(** The characters of a [str]: the bytes of its encoding that do not
    continue a character. *)
Definition utf8_length (s : string) : nat :=
  List.length
    (List.filter
       (fun c => negb ((128 <=? nat_of_ascii c)%nat
                       && (nat_of_ascii c <? 192)%nat))
       (list_ascii_of_string s)).

(** [len(v)] *)
Definition py_len (v : pyval) : res nat :=
  match v with
  | VStr s => Ok (utf8_length s)
  | VList l => Ok (List.length l)
  | VDict d => Ok (List.length d)
  | VObj _ _ (Some n) => Ok n
  | _ => Raise (Exc TypeError
                  ("object of type '" ++ len_type_name v ++ "' has no len()"))
  end.

(** The blanks [int] skips around a literal: tab to carriage return, and
    the space. *)
Definition is_space (c : ascii) : bool :=
  let n := nat_of_ascii c in
  ((9 <=? n)%nat && (n <=? 13)%nat) || (n =? 32)%nat.

Definition digit_of (c : ascii) : option Z :=
  let n := nat_of_ascii c in
  if ((48 <=? n)%nat && (n <=? 57)%nat) then Some (Z.of_nat n - 48)%Z else None.

Fixpoint drop_spaces (s : list ascii) : list ascii :=
  match s with
  | c :: r => if is_space c then drop_spaces r else s
  | [] => []
  end.

Definition strip (s : list ascii) : list ascii :=
  rev (drop_spaces (rev (drop_spaces s))).

(** Decimal digits, single underscores allowed between two digits. *)
Fixpoint digits_value (acc : Z) (after_digit : bool) (s : list ascii)
  : option Z :=
  match s with
  | [] => if after_digit then Some acc else None
  | c :: r =>
      match digit_of c with
      | Some dv => digits_value (10 * acc + dv)%Z true r
      | None =>
          if Ascii.eqb c "_"%char && after_digit
          then digits_value acc false r
          else None
      end
  end.

Definition parse_int (s : string) : option Z :=
  match strip (list_ascii_of_string s) with
  | c :: r =>
      if Ascii.eqb c "-"%char then Z.opp <$> digits_value 0 false r
      else if Ascii.eqb c "+"%char then digits_value 0 false r
      else digits_value 0 false (c :: r)
  | [] => None
  end.

Definition hex_digit (n : nat) : ascii :=
  match n with
  | 0 => "0" | 1 => "1" | 2 => "2" | 3 => "3" | 4 => "4" | 5 => "5"
  | 6 => "6" | 7 => "7" | 8 => "8" | 9 => "9" | 10 => "a" | 11 => "b"
  | 12 => "c" | 13 => "d" | 14 => "e" | _ => "f"
  end%char.

Definition repr_char (quote : ascii) (c : ascii) : list ascii :=
  let n := nat_of_ascii c in
  if Ascii.eqb c "\"%char then ["\"; "\"]%char
  else if Ascii.eqb c quote then ["\"%char; quote]
  else if (n =? 9)%nat then ["\"; "t"]%char
  else if (n =? 10)%nat then ["\"; "n"]%char
  else if (n =? 13)%nat then ["\"; "r"]%char
  else if (n <? 32)%nat || (n =? 127)%nat
       then ["\"; "x"; hex_digit (n / 16); hex_digit (n mod 16)]%char
  else [c].

(** [repr(s)] of a [str]; bytes above 127 are kept, as the UTF-8 encoding of
    printable characters is. *)
Definition py_repr (s : string) : string :=
  let cs := list_ascii_of_string s in
  let has c := existsb (Ascii.eqb c) cs in
  let dquote := ascii_of_nat 34 in
  let quote :=
    if has "'"%char && negb (has dquote) then dquote else "'"%char in
  string_of_list_ascii
    (quote :: List.concat (map (repr_char quote) cs) ++ [quote])%list.

(** The texts on which [int] is modelled here: ASCII characters only, and
    at most 640 of them. Outside them the answer of [int] depends on the
    interpreter: on its table of decimal digits and blanks of other scripts,
    and on its limit on the digits of a literal, which is 4300 unless it is
    set otherwise and is never under 640. *)
Definition plain (s : string) : bool :=
  (String.length s <=? 640)%nat
  && forallb (fun c => (nat_of_ascii c <? 128)%nat) (list_ascii_of_string s).

(** [json.dumps] raises [TypeError] at the first object that has no JSON
    form; [json_unserializable v] is the type name of that object. *)
Fixpoint json_unserializable (v : pyval) : option string :=
  match v with
  | VObj n _ _ => Some n
  | VList l =>
      (fix go (l : list pyval) : option string :=
         match l with
         | [] => None
         | x :: r =>
             match json_unserializable x with
             | Some n => Some n
             | None => go r
             end
         end) l
  | VDict d =>
      (fix go (d : dict) : option string :=
         match d with
         | [] => None
         | (_, x) :: r =>
             match json_unserializable x with
             | Some n => Some n
             | None => go r
             end
         end) d
  | _ => None
  end.

(** ** The state and exception monad *)

Abbreviation loc := nat.

(** A reference held by the caller: an immediate value (a dictionary given
    as [Imm (VDict d)] is one no other name refers to) or the address of a
    dictionary object on the heap. *)
Inductive pyref : Type :=
  | Imm (v : pyval)
  | Ref (l : loc).

(** A call on the [Memory] client. [CAdd] carries the address of the
    metadata object it is given and the contents it has at the call. *)
Inductive client_call : Type :=
  | CAdd (messages : pyval) (user_id : string) (metadata : loc) (contents : dict)
  | CSearch (query : string) (user_id : string) (limit : Z)
  | CGetAll (user_id : string)
  | CUpdate (memory_id : string) (data : pyval)
  | CDelete (memory_id : string).

Record state : Type := State {
  heap : gmap loc dict;
  calls : list client_call;
  stdout : list pyval
}.

Definition M (A : Type) : Type := state -> res A * state.

Definition ret {A} (a : A) : M A := fun st => (Ok a, st).

Definition bind {A B} (m : M A) (f : A -> M B) : M B :=
  fun st =>
    match m st with
    | (Ok a, st') => f a st'
    | (Raise e, st') => (Raise e, st')
    end.

Definition raise {A} (e : pyexc) : M A := fun st => (Raise e, st).

(** [try: m except Exception as e: h e]; what [m] did to the state before it
    raised stays done. *)
Definition try_except {A} (m : M A) (h : pyexc -> M A) : M A :=
  fun st =>
    match m st with
    | (Ok a, st') => (Ok a, st')
    | (Raise e, st') => h e st'
    end.

Definition lift {A} (r : res A) : M A := fun st => (r, st).

Notation "'let*' x ':=' m 'in' k" := (bind m (fun x => k))
  (at level 10, x name, m at level 100, k at level 200,
   format "'[v' 'let*'  x  ':='  m  'in' '/' k ']'").
Notation "'do' m 'then' k" := (bind m (fun _ => k))
  (at level 10, m at level 100, k at level 200,
   format "'[v' 'do'  m  'then' '/' k ']'").

Definition set_heap (h : gmap loc dict) (st : state) : state :=
  State h (calls st) (stdout st).

(** A new dictionary object. *)
Definition alloc (d : dict) : M loc :=
  fun st =>
    let l := fresh (dom (heap st)) in
    (Ok l, set_heap (<[l := d]> (heap st)) st).

(** The contents of a dictionary object; every reference of a well-formed
    state is allocated. *)
Definition deref (l : loc) : M dict :=
  fun st => (Ok (default [] (heap st !! l)), st).

Definition update_at (l : loc) (other : dict) : M unit :=
  fun st =>
    let d := default [] (heap st !! l) in
    (Ok tt, set_heap (<[l := dict_update d other]> (heap st)) st).

(** [print(json.dumps(v))]: [json.dumps] is evaluated first and may raise;
    the printed document is recorded as the value it serialises. *)
Definition print_json (v : pyval) : M unit :=
  fun st =>
    match json_unserializable v with
    | Some n =>
        (Raise (Exc TypeError
                  ("Object of type " ++ n ++ " is not JSON serializable")), st)
    | None => (Ok tt, State (heap st) (calls st) (stdout st ++ [v]))
    end.

(** ** The world outside the source file *)

Definition Client : Type := client_call -> res pyval.

Record World : Type := {
  (** [os.environ] *)
  environ : gmap string string;
  (** [datetime.now().isoformat()] *)
  now_isoformat : string;
  (** [json.loads] *)
  json_loads : string -> res pyval;
  (** [Memory.from_config] *)
  Memory_from_config : pyval -> res Client;
  (** [requests.get(url, timeout=10).status_code], or what importing
      [requests] or the request raises *)
  requests_get : string -> res Z;
  (** [int(s)] for the texts that are not [plain] *)
  int_other : string -> res Z
}.

(** [int(s)] for a [str]. The message holds at most 200 characters of the
    [repr] of the text. *)
Definition py_int (w : World) (s : string) : res Z :=
  if plain s then
    match parse_int s with
    | Some z => Ok z
    | None =>
        Raise (Exc ValueError
                 ("invalid literal for int() with base 10: "
                  ++ take_string 200 (py_repr s)))
    end
  else int_other w s.

(** [os.getenv(k)] and [os.getenv(k, d)] *)
Definition getenv (w : World) (k : string) : option string := environ w !! k.
Definition getenv_or (w : World) (k d : string) : string :=
  default d (environ w !! k).

Definition opt_str (o : option string) : pyval :=
  match o with Some s => VStr s | None => VNone end.

(** An attribute of [self.memory]; [None] has none. *)
Definition call_client (m : option Client) (meth : string) (c : client_call)
  : M pyval :=
  match m with
  | None =>
      raise (Exc AttributeError
               ("'NoneType' object has no attribute '" ++ meth ++ "'"))
  | Some cl =>
      fun st => (cl c, State (heap st) (calls st ++ [c]) (stdout st))
  end.

(** ** Configuration and the bridge object *)

(** The dictionary [config] that [main] builds; it always has these eight
    keys, so the defaults of [config.get] in the class are never taken. *)
Record Config : Type := {
  qdrant_host : string;
  qdrant_port : Z;
  qdrant_collection : string;
  qdrant_api_key : option string;
  memgraph_host : string;
  memgraph_port : Z;
  memgraph_user : string;
  memgraph_password : string
}.

Record Bridge : Type := mkBridge {
  config : Config;
  memory : option Client;
  initialized : bool;
  mem0_config : pyval
}.

(** Result envelopes *)
Definition envelope_result (r : pyval) : pyval :=
  VDict [("success", VBool true); ("result", r)].
Definition envelope_results (r : pyval) : pyval :=
  VDict [("success", VBool true); ("results", r)].
Definition envelope_status (status : dict) : pyval :=
  VDict [("success", VBool true); ("status", VDict status)].
Definition envelope_error (e : pyexc) : pyval :=
  VDict [("success", VBool false); ("error", VStr (exc_msg e))].

Definition not_initialized : pyexc := Exc RuntimeError "mem0 not initialized".

Module Mem0Bridge.

Definition qdrant_url (cfg : Config) : string :=
  "http://" ++ qdrant_host cfg ++ ":" ++ pretty (qdrant_port cfg).

Definition build_mem0_config (w : World) (cfg : Config) : pyval :=
  VDict
    [("embedder",
      VDict
        [("provider", VStr "openai");
         ("config",
          VDict
            [("model", VStr "text-embedding-3-large");
             ("embedding_dims", VInt 1536);
             ("api_key", opt_str (getenv w "OPENAI_API_KEY"))])]);
     ("vector_store",
      VDict
        [("provider", VStr "qdrant");
         ("config",
          VDict
            [("collection_name", VStr (qdrant_collection cfg));
             ("url", VStr (qdrant_url cfg));
             ("api_key", opt_str (qdrant_api_key cfg))])])].

(** The soft probe of the vector store: whatever it raises is logged and
    dropped. *)
Definition connectivity_check (w : World) (self : Bridge) : M unit :=
  if bool_decide (getenv w "SKIP_CONNECTIVITY_CHECK" = Some "true")
  then ret tt
  else
    try_except
      (let* _ := lift (requests_get w (qdrant_url (config self) ++ "/collections")) in
       ret tt)
      (fun _ => ret tt).

(** Writing the key back to [os.environ] stores the value just read. *)
Definition _initialize_memory (w : World) (self : Bridge) : M Bridge :=
  try_except
    (let* openai_key :=
       match getenv w "OPENAI_API_KEY" with
       | Some k =>
           if String.eqb k ""
           then raise (Exc ValueError
                         "OPENAI_API_KEY environment variable is required")
           else ret k
       | None =>
           raise (Exc ValueError
                    "OPENAI_API_KEY environment variable is required")
       end in
     do connectivity_check w self then
     let* m := lift (Memory_from_config w (mem0_config self)) in
     ret (mkBridge (config self) (Some m) true (mem0_config self)))
    (fun _ =>
       ret (mkBridge (config self) (memory self) false (mem0_config self))).

Definition __init__ (w : World) (cfg : Config) : M Bridge :=
  _initialize_memory w (mkBridge cfg None false (build_mem0_config w cfg)).

(** The object [metadata.update] is called on: [None] is replaced by a new
    empty dictionary, anything but a dictionary has no [update]. *)
Definition metadata_object (metadata : pyref) : M loc :=
  match metadata with
  | Imm VNone => alloc []
  | Imm (VDict d) => alloc d
  | Imm v =>
      raise (Exc AttributeError
               ("'" ++ py_type_name v ++ "' object has no attribute 'update'"))
  | Ref l => ret l
  end.

Definition add_memory (w : World) (self : Bridge)
    (messages : pyval) (user_id : string) (metadata : pyref) : M pyval :=
  if negb (initialized self) then raise not_initialized
  else
    try_except
      (let* md := metadata_object metadata in
       do update_at md
            [("timestamp", VStr (now_isoformat w));
             ("source", VStr "autoweave");
             ("user_id", VStr user_id)] then
       let* contents := deref md in
       let* result :=
         call_client (memory self) "add" (CAdd messages user_id md contents) in
       ret (envelope_result result))
      (fun e => ret (envelope_error e)).

Definition search_memory (w : World) (self : Bridge)
    (query user_id : string) (limit : Z) : M pyval :=
  if negb (initialized self) then raise not_initialized
  else
    try_except
      (let* results :=
         call_client (memory self) "search" (CSearch query user_id limit) in
       let* _ := lift (py_len results) in
       ret (envelope_results results))
      (fun e => ret (envelope_error e)).

Definition get_all_memories (w : World) (self : Bridge) (user_id : string)
  : M pyval :=
  if negb (initialized self) then raise not_initialized
  else
    try_except
      (let* results := call_client (memory self) "get_all" (CGetAll user_id) in
       let* _ := lift (py_len results) in
       ret (envelope_results results))
      (fun e => ret (envelope_error e)).

Definition update_memory (w : World) (self : Bridge)
    (memory_id : string) (data : pyval) : M pyval :=
  if negb (initialized self) then raise not_initialized
  else
    try_except
      (let* result :=
         call_client (memory self) "update" (CUpdate memory_id data) in
       ret (envelope_result result))
      (fun e => ret (envelope_error e)).

Definition delete_memory (w : World) (self : Bridge) (memory_id : string)
  : M pyval :=
  if negb (initialized self) then raise not_initialized
  else
    try_except
      (let* result := call_client (memory self) "delete" (CDelete memory_id) in
       ret (envelope_result result))
      (fun e => ret (envelope_error e)).

Definition health_check (w : World) (self : Bridge) : M pyval :=
  try_except
    (let status :=
       [("initialized", VBool (initialized self));
        ("timestamp", VStr (now_isoformat w));
        ("config",
         VDict
           [("vector_store", VStr "qdrant");
            ("graph_store", VStr "memgraph");
            ("embedder", VStr "openai")])] in
     let* status :=
       if initialized self then
         let* test_result :=
           call_client (memory self) "search"
             (CSearch "test" "health_check" 1) in
         let status := dict_set "functional" (VBool true) status in
         let* n := lift (py_len test_result) in
         ret (dict_set "test_result"
                (VStr ("Search test successful: " ++ pretty n ++ " results"))
                status)
       else
         ret (dict_set "test_result" (VStr "mem0 not initialized")
                (dict_set "functional" (VBool false) status)) in
     ret (envelope_status status))
    (fun e => ret (envelope_error e)).

End Mem0Bridge.

(** ** The command dispatcher *)

(** [sys.argv[i]] *)
Definition argv_at (argv : list string) (i : nat) : M string :=
  match argv !! i with
  | Some s => ret s
  | None => raise (Exc IndexError "list index out of range")
  end.

Definition top_level_error (msg : string) : pyval :=
  VDict [("error", VStr msg)].

(** The configuration read from the environment; [int] is applied to the two
    ports in this order, outside any [try]. *)
Definition read_config (w : World) : M Config :=
  let* qport := lift (py_int w (getenv_or w "QDRANT_PORT" "6333")) in
  let* mport := lift (py_int w (getenv_or w "MEMGRAPH_PORT" "7687")) in
  ret {| qdrant_host := getenv_or w "QDRANT_HOST" "localhost";
         qdrant_port := qport;
         qdrant_collection := getenv_or w "QDRANT_COLLECTION" "autoweave";
         qdrant_api_key := getenv w "QDRANT_API_KEY";
         memgraph_host := getenv_or w "MEMGRAPH_HOST" "localhost";
         memgraph_port := mport;
         memgraph_user := getenv_or w "MEMGRAPH_USER" "memgraph";
         memgraph_password := getenv_or w "MEMGRAPH_PASSWORD" "memgraph" |}.

(** The body of the [try] of [main]: one branch per command. *)
Definition run_command (w : World) (bridge : Bridge) (argv : list string)
    (command : string) : M unit :=
  if String.eqb command "add" then
    if (List.length argv <? 5)%nat
    then raise (Exc ValueError "Usage: add <user_id> <message> <metadata_json>")
    else
      let* user_id := argv_at argv 2 in
      let* message := argv_at argv 3 in
      let* metadata :=
        if (4 <? List.length argv)%nat
        then let* s := argv_at argv 4 in lift (json_loads w s)
        else ret (VDict []) in
      let messages :=
        VList [VDict [("role", VStr "user"); ("content", VStr message)]] in
      let* result :=
        Mem0Bridge.add_memory w bridge messages user_id (Imm metadata) in
      print_json result
  else if String.eqb command "search" then
    if (List.length argv <? 4)%nat
    then raise (Exc ValueError "Usage: search <user_id> <query> [limit]")
    else
      let* user_id := argv_at argv 2 in
      let* query := argv_at argv 3 in
      let* limit :=
        if (4 <? List.length argv)%nat
        then let* s := argv_at argv 4 in lift (py_int w s)
        else ret 10%Z in
      let* result := Mem0Bridge.search_memory w bridge query user_id limit in
      print_json result
  else if String.eqb command "get_all" then
    if (List.length argv <? 3)%nat
    then raise (Exc ValueError "Usage: get_all <user_id>")
    else
      let* user_id := argv_at argv 2 in
      let* result := Mem0Bridge.get_all_memories w bridge user_id in
      print_json result
  else if String.eqb command "update" then
    if (List.length argv <? 4)%nat
    then raise (Exc ValueError "Usage: update <memory_id> <data_json>")
    else
      let* memory_id := argv_at argv 2 in
      let* s := argv_at argv 3 in
      let* data := lift (json_loads w s) in
      let* result := Mem0Bridge.update_memory w bridge memory_id data in
      print_json result
  else if String.eqb command "delete" then
    if (List.length argv <? 3)%nat
    then raise (Exc ValueError "Usage: delete <memory_id>")
    else
      let* memory_id := argv_at argv 2 in
      let* result := Mem0Bridge.delete_memory w bridge memory_id in
      print_json result
  else if String.eqb command "health" then
    let* result := Mem0Bridge.health_check w bridge in
    print_json result
  else raise (Exc ValueError ("Unknown command: " ++ command)).

(** [main] returns the status [sys.exit] is called with, or 0 when it runs to
    its end. *)
Definition main (w : World) (argv : list string) : M Z :=
  if (List.length argv <? 2)%nat then
    do print_json (top_level_error "Missing command") then
    ret 1%Z
  else
    let* cfg := read_config w in
    let* made :=
      try_except
        (let* bridge := Mem0Bridge.__init__ w cfg in ret (Some bridge))
        (fun e =>
           do print_json
                (top_level_error ("Failed to initialize bridge: " ++ exc_msg e)) then
           ret None) in
    match made with
    | None => ret 1%Z
    | Some bridge =>
        let* command := argv_at argv 1 in
        try_except
          (do run_command w bridge argv command then ret 0%Z)
          (fun e => do print_json (top_level_error (exc_msg e)) then ret 1%Z)
    end.

(** A process: [main] from the empty state. An exception that leaves [main]
    ends the process with a traceback on standard error and status 1. *)
Definition initial_state : state := State ∅ [] [].

Definition run (w : World) (argv : list string) : res Z * state :=
  main w argv initial_state.

Definition exit_status (r : res Z) : Z :=
  match r with
  | Ok code => code
  | Raise _ => 1%Z
  end.

Definition printed (w : World) (argv : list string) : list pyval :=
  stdout (snd (run w argv)).

Definition status_of (w : World) (argv : list string) : Z :=
  exit_status (fst (run w argv)).

(** ** Notions the statements use *)

(** The envelope contract for payload keys [payload]: [success] is a boolean,
    exactly one key among the payload keys and [error] is there, a payload
    key when [success] holds and [error] when it does not. *)
Definition envelope_contract (payload : list string) (env : pyval) : bool :=
  match env with
  | VDict d =>
      match dict_get "success" d with
      | Some (VBool b) =>
          (List.length
             (List.filter (fun k => has_key k d) (payload ++ ["error"]))
           =? 1)%nat
          && Bool.eqb (existsb (fun k => has_key k d) payload) b
          && Bool.eqb (has_key "error" d) (negb b)
      | _ => false
      end
  | _ => false
  end.

(** The injected entries of [add_memory] and the keys they are stored at. *)
Definition injected (w : World) (user_id : string) : dict :=
  [("timestamp", VStr (now_isoformat w));
   ("source", VStr "autoweave");
   ("user_id", VStr user_id)].

(** The dictionary the caller of [add_memory] hands over, when it is one. *)
Definition caller_metadata (metadata : pyref) (st : state) : option dict :=
  match metadata with
  | Imm VNone => Some []
  | Imm (VDict d) => Some d
  | Imm _ => None
  | Ref l => heap st !! l
  end.

(** [int] reads both ports of the environment, so that [read_config]
    returns. *)
Definition ports_parse (w : World) : Prop :=
  (exists q, py_int w (getenv_or w "QDRANT_PORT" "6333") = Ok q)
  /\ (exists m, py_int w (getenv_or w "MEMGRAPH_PORT" "7687") = Ok m).

(** An exception is raised in the [try] of [_initialize_memory]: the API key
    is missing or empty, or [Memory.from_config] raises. *)
Definition initialization_raises (w : World) (cfg : Config) : bool :=
  match getenv w "OPENAI_API_KEY" with
  | None => true
  | Some k =>
      String.eqb k ""
      || match Memory_from_config w (Mem0Bridge.build_mem0_config w cfg) with
         | Raise _ => true
         | Ok _ => false
         end
  end.

(** The chat-style entry the [add] command wraps a message in. *)
Definition chat_entry (message : string) : pyval :=
  VList [VDict [("role", VStr "user"); ("content", VStr message)]].

(** The table of data commands: an invocation that has every required
    argument, with JSON and integer arguments that parse, and the bridge call
    it stands for. *)
Inductive dispatches (w : World) (bridge : Bridge)
  : list string -> M pyval -> Prop :=
  | d_add prog uid msg j rest md :
      json_loads w j = Ok md ->
      dispatches w bridge (prog :: "add" :: uid :: msg :: j :: rest)
        (Mem0Bridge.add_memory w bridge (chat_entry msg) uid (Imm md))
  | d_search prog uid q :
      dispatches w bridge [prog; "search"; uid; q]
        (Mem0Bridge.search_memory w bridge q uid 10%Z)
  | d_search_limit prog uid q s rest n :
      py_int w s = Ok n ->
      dispatches w bridge (prog :: "search" :: uid :: q :: s :: rest)
        (Mem0Bridge.search_memory w bridge q uid n)
  | d_get_all prog uid rest :
      dispatches w bridge (prog :: "get_all" :: uid :: rest)
        (Mem0Bridge.get_all_memories w bridge uid)
  | d_update prog mid j rest data :
      json_loads w j = Ok data ->
      dispatches w bridge (prog :: "update" :: mid :: j :: rest)
        (Mem0Bridge.update_memory w bridge mid data)
  | d_delete prog mid rest :
      dispatches w bridge (prog :: "delete" :: mid :: rest)
        (Mem0Bridge.delete_memory w bridge mid).

Definition commands : list string :=
  ["add"; "search"; "get_all"; "update"; "delete"; "health"].

(** Dispatcher-level errors and their messages: a missing required argument,
    a malformed JSON payload, an unknown command. *)
Inductive dispatcher_error (w : World) : list string -> string -> Prop :=
  | de_no_command argv :
      (List.length argv < 2)%nat ->
      dispatcher_error w argv "Missing command"
  | de_add_args prog rest :
      (List.length rest < 3)%nat ->
      dispatcher_error w (prog :: "add" :: rest)
        "Usage: add <user_id> <message> <metadata_json>"
  | de_add_json prog uid msg j rest e :
      json_loads w j = Raise e ->
      dispatcher_error w (prog :: "add" :: uid :: msg :: j :: rest) (exc_msg e)
  | de_search_args prog rest :
      (List.length rest < 2)%nat ->
      dispatcher_error w (prog :: "search" :: rest)
        "Usage: search <user_id> <query> [limit]"
  | de_get_all_args prog :
      dispatcher_error w [prog; "get_all"] "Usage: get_all <user_id>"
  | de_update_args prog rest :
      (List.length rest < 2)%nat ->
      dispatcher_error w (prog :: "update" :: rest)
        "Usage: update <memory_id> <data_json>"
  | de_update_json prog mid j rest e :
      json_loads w j = Raise e ->
      dispatcher_error w (prog :: "update" :: mid :: j :: rest) (exc_msg e)
  | de_delete_args prog :
      dispatcher_error w [prog; "delete"] "Usage: delete <memory_id>"
  | de_unknown prog cmd rest :
      cmd ∉ commands ->
      dispatcher_error w (prog :: cmd :: rest) ("Unknown command: " ++ cmd).

Definition ok_or {A} (d : A) (r : res A) : A :=
  match r with
  | Ok a => a
  | Raise _ => d
  end.

(** The configuration [read_config] returns when the ports parse. *)
Definition env_config (w : World) : Config :=
  {| qdrant_host := getenv_or w "QDRANT_HOST" "localhost";
     qdrant_port := ok_or 0%Z (py_int w (getenv_or w "QDRANT_PORT" "6333"));
     qdrant_collection := getenv_or w "QDRANT_COLLECTION" "autoweave";
     qdrant_api_key := getenv w "QDRANT_API_KEY";
     memgraph_host := getenv_or w "MEMGRAPH_HOST" "localhost";
     memgraph_port :=
       ok_or 0%Z (py_int w (getenv_or w "MEMGRAPH_PORT" "7687"));
     memgraph_user := getenv_or w "MEMGRAPH_USER" "memgraph";
     memgraph_password := getenv_or w "MEMGRAPH_PASSWORD" "memgraph" |}.

(** The bridge the constructor leaves behind. *)
Definition built (w : World) (cfg : Config) : Bridge :=
  let mc := Mem0Bridge.build_mem0_config w cfg in
  if initialization_raises w cfg then mkBridge cfg None false mc
  else
    match Memory_from_config w mc with
    | Ok m => mkBridge cfg (Some m) true mc
    | Raise _ => mkBridge cfg None false mc
    end.

(** The outcome of the probe of [health_check] on an initialized bridge: the
    search, then the [len] of what it returned. *)
Definition probe (self : Bridge) : res nat :=
  match memory self with
  | None =>
      Raise (Exc AttributeError "'NoneType' object has no attribute 'search'")
  | Some cl =>
      match cl (CSearch "test" "health_check" 1%Z) with
      | Ok v => py_len v
      | Raise e => Raise e
      end
  end.

(** The envelopes of the data operations. *)
Inductive operation_envelope : pyval -> Prop :=
  | oe_result r : operation_envelope (envelope_result r)
  | oe_results r : operation_envelope (envelope_results r)
  | oe_error e : operation_envelope (envelope_error e).

(** The status dictionary of [health_check]. *)
Definition health_status (w : World) (init functional : bool)
    (test_result : string) : dict :=
  [("initialized", VBool init);
   ("timestamp", VStr (now_isoformat w));
   ("config",
    VDict
      [("vector_store", VStr "qdrant");
       ("graph_store", VStr "memgraph");
       ("embedder", VStr "openai")]);
   ("functional", VBool functional);
   ("test_result", VStr test_result)].

(** [m] prints nothing. *)
Definition silent {A} (m : M A) : Prop :=
  forall st, stdout (snd (m st)) = stdout st.

(** [m] prints one document as its last step, or raises having printed
    nothing. *)
Definition prints_last (m : M unit) : Prop :=
  forall st,
    match m st with
    | (Ok _, st') => exists v, stdout st' = (stdout st ++ [v])%list
    | (Raise _, st') => stdout st' = stdout st
    end.

(** ** Sample worlds *)

Definition records : pyval :=
  VList
    [VDict [("id", VStr "m1"); ("memory", VStr "likes tea")];
     VDict [("id", VStr "m2"); ("memory", VStr "lives in Lyon")];
     VDict [("id", VStr "m3"); ("memory", VStr "says hello")]].

Definition working_client : Client :=
  fun c =>
    match c with
    | CAdd _ _ _ _ => Ok (VDict [("id", VStr "m4")])
    | CSearch _ _ _ => Ok records
    | CGetAll _ => Ok records
    | CUpdate _ _ => Ok (VDict [("message", VStr "Memory updated")])
    | CDelete _ => Ok (VDict [("message", VStr "Memory deleted")])
    end.

Definition connection_refused : pyexc :=
  Exc (OtherException "ConnectionError") "connection refused".

Definition failing_client : Client := fun _ => Raise connection_refused.

(** A reader of three JSON texts; every other text is taken as malformed. *)
Definition sample_json_loads (s : string) : res pyval :=
  if String.eqb s "{}" then Ok (VDict [])
  else if String.eqb s "null" then Ok VNone
  else if String.eqb s "[1]" then Ok (VList [VInt 1])
  else Raise (Exc JSONDecodeError "Expecting value: line 1 column 1 (char 0)").

Definition sample_world (env : gmap string string) (cl : res Client) : World :=
  {| environ := env;
     now_isoformat := "2024-01-01T12:00:00.000000";
     json_loads := sample_json_loads;
     Memory_from_config := fun _ => cl;
     requests_get := fun _ => Ok 200%Z;
     int_other :=
       fun s =>
         Raise (Exc ValueError
                  ("invalid literal for int() with base 10: "
                   ++ take_string 200 (py_repr s))) |}.

Definition world_ok : World :=
  sample_world {[ "OPENAI_API_KEY" := "sk-test" ]} (Ok working_client).

Definition world_down : World :=
  sample_world {[ "OPENAI_API_KEY" := "sk-test" ]} (Ok failing_client).

Definition world_no_key : World := sample_world ∅ (Ok working_client).

Definition world_bad_port : World :=
  sample_world
    (<[ "QDRANT_PORT" := "abc" ]> {[ "OPENAI_API_KEY" := "sk-test" ]})
    (Ok working_client).

Definition sample_config : Config :=
  {| qdrant_host := "localhost";
     qdrant_port := 6333;
     qdrant_collection := "autoweave";
     qdrant_api_key := None;
     memgraph_host := "localhost";
     memgraph_port := 7687;
     memgraph_user := "memgraph";
     memgraph_password := "memgraph" |}.

Definition bridge_with (w : World) (cl : option Client) (init : bool) : Bridge :=
  mkBridge sample_config cl init (Mem0Bridge.build_mem0_config w sample_config).

Definition bridge_ok : Bridge := bridge_with world_ok (Some working_client) true.
Definition bridge_down : Bridge := bridge_with world_down (Some failing_client) true.
Definition bridge_failed : Bridge := bridge_with world_no_key None false.

(** ** Notions of the further properties *)

(** The [success] field of a printed document, when it has a boolean one. *)
Definition success_of (v : pyval) : option bool :=
  match v with
  | VDict d =>
      match dict_get "success" d with
      | Some (VBool b) => Some b
      | _ => None
      end
  | _ => None
  end.

(** The values [len] accepts. *)
Definition sized (v : pyval) : bool :=
  match v with
  | VStr _ | VList _ | VDict _ | VObj _ _ (Some _) => true
  | _ => false
  end.

(** Whatever [m] returns satisfies [P]. *)
Definition returns_with {A} (P : A -> Prop) (m : M A) : Prop :=
  forall st,
    match m st with
    | (Ok a, _) => P a
    | (Raise _, _) => True
    end.

(** [m] prints one document that satisfies [P] as its last step, or raises
    having printed nothing. *)
Definition prints_last_with (P : pyval -> Prop) (m : M unit) : Prop :=
  forall st,
    match m st with
    | (Ok _, st') => exists v, stdout st' = (stdout st ++ [v])%list /\ P v
    | (Raise _, st') => stdout st' = stdout st
    end.

(** [m] makes no call on the client. *)
Definition quiet {A} (m : M A) : Prop :=
  forall st, calls (snd (m st)) = calls st.

(** [m] makes at most one call on the client. *)
Definition one_call {A} (m : M A) : Prop :=
  forall st,
    exists extra,
      calls (snd (m st)) = (calls st ++ extra)%list
      /\ (List.length extra <= 1)%nat.

(** One more decimal digit read after the value [a]. *)
Definition digit_step (a : Z) (c : ascii) : Z :=
  (10 * a + default 0 (digit_of c))%Z.

Definition world_wide_ports : World :=
  sample_world
    (<[ "QDRANT_PORT" := "-1" ]>
       (<[ "MEMGRAPH_PORT" := "70000" ]> {[ "OPENAI_API_KEY" := "sk-test" ]}))
    (Ok working_client).

(** The world [w] with another environment, and with another HTTP probe. *)
Definition with_environ (w : World) (env : gmap string string) : World :=
  {| environ := env;
     now_isoformat := now_isoformat w;
     json_loads := json_loads w;
     Memory_from_config := Memory_from_config w;
     requests_get := requests_get w;
     int_other := int_other w |}.

Definition with_requests (w : World) (rq : string -> res Z) : World :=
  {| environ := environ w;
     now_isoformat := now_isoformat w;
     json_loads := json_loads w;
     Memory_from_config := Memory_from_config w;
     requests_get := rq;
     int_other := int_other w |}.

(** A client whose answers are no records: [None], a [datetime], a set of
    two elements. *)
Definition odd_client : Client :=
  fun c =>
    match c with
    | CAdd _ _ _ _ => Ok VNone
    | CSearch _ _ _ => Ok (VObj "datetime" "datetime.datetime" None)
    | CGetAll _ => Ok (VObj "set" "set" (Some 2))
    | CUpdate _ _ => Ok VNone
    | CDelete _ => Ok (VObj "datetime" "datetime.datetime" None)
    end.

Definition world_odd : World :=
  sample_world {[ "OPENAI_API_KEY" := "sk-test" ]} (Ok odd_client).

Definition bridge_odd : Bridge := bridge_with world_odd (Some odd_client) true.

Definition world_empty_port : World :=
  sample_world
    (<[ "QDRANT_PORT" := "" ]> {[ "OPENAI_API_KEY" := "sk-test" ]})
    (Ok working_client).

(** * Properties *)

(** ** Dictionaries *)

Section DictFacts.

Lemma dict_get_set_eq k v (d : dict) : dict_get k (dict_set k v d) = Some v.
Proof.
  induction d as [|[k' v'] r IH]; simpl.
  - by rewrite String.eqb_refl.
  - destruct (String.eqb k k') eqn:E; simpl; rewrite E; auto.
Qed.

Lemma dict_get_set_ne k k' v (d : dict) :
  k <> k' -> dict_get k (dict_set k' v d) = dict_get k d.
Proof.
  intros Hne. apply String.eqb_neq in Hne.
  induction d as [|[k2 v2] r IH]; simpl.
  - by rewrite Hne.
  - destruct (String.eqb k' k2) eqn:E; simpl.
    + apply String.eqb_eq in E. subst k2. by rewrite Hne.
    + by rewrite IH.
Qed.

Lemma injected_timestamp w uid (d : dict) :
  dict_get "timestamp" (dict_update d (injected w uid))
  = Some (VStr (now_isoformat w)).
Proof.
  unfold dict_update, injected; simpl.
  rewrite !dict_get_set_ne by discriminate. apply dict_get_set_eq.
Qed.

Lemma injected_source w uid (d : dict) :
  dict_get "source" (dict_update d (injected w uid))
  = Some (VStr "autoweave").
Proof.
  unfold dict_update, injected; simpl.
  rewrite dict_get_set_ne by discriminate. apply dict_get_set_eq.
Qed.

Lemma injected_user_id w uid (d : dict) :
  dict_get "user_id" (dict_update d (injected w uid)) = Some (VStr uid).
Proof. unfold dict_update, injected; simpl. apply dict_get_set_eq. Qed.

Lemma injected_frame w uid (d : dict) k :
  k ∉ ["timestamp"; "source"; "user_id"] ->
  dict_get k (dict_update d (injected w uid)) = dict_get k d.
Proof.
  rewrite !not_elem_of_cons. intros (H1 & H2 & H3 & _).
  unfold dict_update, injected; simpl.
  by rewrite !dict_get_set_ne.
Qed.

End DictFacts.

(** ** The initialization gate *)

(** C3. On a bridge whose [initialized] flag is false, each of the five data
    operations raises the not-initialized [RuntimeError]: it returns no
    envelope, calls the client not at all and leaves the state as it was. *)
Theorem uninitialized_operations_raise
    w (self : Bridge) st messages user_id metadata query limit memory_id data :
  initialized self = false ->
  Mem0Bridge.add_memory w self messages user_id metadata st
    = (Raise not_initialized, st)
  /\ Mem0Bridge.search_memory w self query user_id limit st
    = (Raise not_initialized, st)
  /\ Mem0Bridge.get_all_memories w self user_id st
    = (Raise not_initialized, st)
  /\ Mem0Bridge.update_memory w self memory_id data st
    = (Raise not_initialized, st)
  /\ Mem0Bridge.delete_memory w self memory_id st
    = (Raise not_initialized, st).
Proof.
  intros Hinit.
  unfold Mem0Bridge.add_memory, Mem0Bridge.search_memory,
    Mem0Bridge.get_all_memories, Mem0Bridge.update_memory,
    Mem0Bridge.delete_memory.
  rewrite Hinit. simpl. unfold raise. auto.
Qed.

Lemma uninitialized_operations_raise_witness :
  initialized bridge_failed = false
  /\ Mem0Bridge.delete_memory world_no_key bridge_failed "m1" initial_state
     = (Raise not_initialized, initial_state).
Proof.
  split; [reflexivity|].
  apply (uninitialized_operations_raise world_no_key bridge_failed
           initial_state VNone "u" (Imm VNone) "q" 10%Z "m1" VNone).
  reflexivity.
Defined.

(** ** The metadata of [add_memory] *)

(** What [add_memory] does past the gate when the metadata is a dictionary
    (or [None]) and the client is there: the object at [l] receives the
    injected entries and is handed to the client's [add]. *)
Lemma add_memory_run w (self : Bridge) cl st messages user_id metadata d0 :
  initialized self = true ->
  memory self = Some cl ->
  caller_metadata metadata st = Some d0 ->
  exists l,
    let d' := dict_update d0 (injected w user_id) in
    let call := CAdd messages user_id l d' in
    (forall l0, metadata = Ref l0 -> l = l0)
    /\ Mem0Bridge.add_memory w self messages user_id metadata st
       = (Ok match cl call with
             | Ok r => envelope_result r
             | Raise e => envelope_error e
             end,
          State (<[l := d']> (heap st)) (calls st ++ [call]) (stdout st)).
Proof.
  intros Hinit Hmem Hmd.
  unfold Mem0Bridge.add_memory. rewrite Hinit, Hmem. simpl.
  destruct metadata as [v|l0]; simpl in Hmd.
  - destruct v; try discriminate; injection Hmd as <-.
    + exists (fresh (dom (heap st))). simpl. split; [discriminate|].
      unfold try_except, bind, Mem0Bridge.metadata_object, alloc, update_at,
        deref, call_client, ret, set_heap; simpl.
      rewrite !lookup_insert_eq; simpl. rewrite insert_insert_eq.
      fold (injected w user_id).
      by destruct (cl _).
    + exists (fresh (dom (heap st))). simpl. split; [discriminate|].
      unfold try_except, bind, Mem0Bridge.metadata_object, alloc, update_at,
        deref, call_client, ret, set_heap; simpl.
      rewrite !lookup_insert_eq; simpl. rewrite insert_insert_eq.
      fold (injected w user_id).
      by destruct (cl _).
  - exists l0. simpl. split; [congruence|].
    unfold try_except, bind, Mem0Bridge.metadata_object, update_at,
      deref, call_client, ret, set_heap; simpl.
    rewrite Hmd, !lookup_insert_eq; simpl.
    fold (injected w user_id).
    by destruct (cl _).
Qed.

(** C4. On an initialized bridge, the client's [add] is called once, with a
    metadata dictionary in which [timestamp], [source] and [user_id] hold the
    clock's value, the fixed tag and the [user_id] argument, whatever the
    caller had stored there; every other key has the caller's value. *)
Theorem add_memory_injects_metadata
    w (self : Bridge) cl st messages user_id metadata d0 :
  initialized self = true ->
  memory self = Some cl ->
  caller_metadata metadata st = Some d0 ->
  exists l d',
    calls (snd (Mem0Bridge.add_memory w self messages user_id metadata st))
      = (calls st ++ [CAdd messages user_id l d'])%list
    /\ dict_get "timestamp" d' = Some (VStr (now_isoformat w))
    /\ dict_get "source" d' = Some (VStr "autoweave")
    /\ dict_get "user_id" d' = Some (VStr user_id)
    /\ forall k, k ∉ ["timestamp"; "source"; "user_id"] ->
                 dict_get k d' = dict_get k d0.
Proof.
  intros Hinit Hmem Hmd.
  destruct (add_memory_run w self cl st messages user_id metadata d0
              Hinit Hmem Hmd) as (l & _ & Hrun).
  exists l, (dict_update d0 (injected w user_id)).
  rewrite Hrun. simpl.
  split; [reflexivity|].
  split; [apply injected_timestamp|].
  split; [apply injected_source|].
  split; [apply injected_user_id|].
  intros k Hk. by apply injected_frame.
Qed.

Lemma add_memory_injects_metadata_witness :
  let md := [("tag", VStr "x"); ("source", VStr "caller")] in
  initialized bridge_ok = true
  /\ memory bridge_ok = Some working_client
  /\ caller_metadata (Imm (VDict md)) initial_state = Some md
  /\ exists l d',
      calls (snd (Mem0Bridge.add_memory world_ok bridge_ok VNone "user1"
                    (Imm (VDict md)) initial_state))
        = [CAdd VNone "user1" l d']
      /\ dict_get "timestamp" d' = Some (VStr (now_isoformat world_ok))
      /\ dict_get "source" d' = Some (VStr "autoweave")
      /\ dict_get "user_id" d' = Some (VStr "user1")
      /\ forall k, k ∉ ["timestamp"; "source"; "user_id"] ->
                   dict_get k d' = dict_get k md.
Proof.
  intros md. repeat (split; [reflexivity|]).
  apply (add_memory_injects_metadata world_ok bridge_ok working_client
           initial_state VNone "user1" (Imm (VDict md)) md);
    reflexivity.
Defined.

(** C10. [add_memory] merges into the caller's own dictionary object: after a
    call that passed the gate with a reference to the dictionary at [l], the
    heap holds at [l] the caller's entries updated with [timestamp], [source]
    and [user_id], no other object was created or changed, and the client is
    handed [l] itself. *)
Theorem add_memory_mutates_caller_metadata
    w (self : Bridge) st messages user_id l d0 :
  initialized self = true ->
  heap st !! l = Some d0 ->
  let st' := snd (Mem0Bridge.add_memory w self messages user_id (Ref l) st) in
  let d' := dict_update d0 (injected w user_id) in
  heap st' = <[l := d']> (heap st)
  /\ heap st' !! l = Some d'
  /\ dict_get "timestamp" d' = Some (VStr (now_isoformat w))
  /\ dict_get "source" d' = Some (VStr "autoweave")
  /\ dict_get "user_id" d' = Some (VStr user_id)
  /\ (forall k, k ∉ ["timestamp"; "source"; "user_id"] ->
                dict_get k d' = dict_get k d0)
  /\ (is_Some (memory self) ->
      calls st' = (calls st ++ [CAdd messages user_id l d'])%list).
Proof.
  intros Hinit Hl st' d'.
  assert (Hheap : heap st' = <[l := d']> (heap st)).
  { subst st' d'. unfold Mem0Bridge.add_memory. rewrite Hinit. simpl.
    unfold try_except, bind, Mem0Bridge.metadata_object, update_at, deref,
      call_client, ret, raise, set_heap; simpl.
    rewrite Hl; simpl. fold (injected w user_id).
    destruct (memory self) as [cl|]; simpl; [|reflexivity].
    by destruct (cl _). }
  split; [exact Hheap|].
  split; [rewrite Hheap; apply lookup_insert_eq|].
  split; [apply injected_timestamp|].
  split; [apply injected_source|].
  split; [apply injected_user_id|].
  split; [intros k Hk; by apply injected_frame|].
  intros [cl Hcl].
  destruct (add_memory_run w self cl st messages user_id (Ref l) d0
              Hinit Hcl Hl) as (l' & Hsame & Hrun).
  specialize (Hsame l eq_refl). subst l'.
  subst st'. by rewrite Hrun.
Qed.

Lemma add_memory_mutates_caller_metadata_witness :
  let d0 := [("tag", VStr "x"); ("user_id", VStr "someone else")] in
  let st := State {[ 7 := d0 ]} [] [] in
  let st' := snd (Mem0Bridge.add_memory world_ok bridge_ok VNone "user1"
                    (Ref 7) st) in
  initialized bridge_ok = true
  /\ heap st !! 7 = Some d0
  /\ heap st' !! 7
     = Some [("tag", VStr "x"); ("user_id", VStr "user1");
             ("timestamp", VStr (now_isoformat world_ok));
             ("source", VStr "autoweave")].
Proof.
  intros d0 st st'. repeat (split; [reflexivity|]).
  refine (proj1 (proj2 (add_memory_mutates_caller_metadata world_ok bridge_ok
            st VNone "user1" 7 d0 _ _))); reflexivity.
Defined.

(** ** Operations past the gate *)

Section Silence.

Lemma silent_ret {A} (a : A) : silent (ret a).
Proof. by intros st. Qed.

Lemma silent_raise {A} e : silent (@raise A e).
Proof. by intros st. Qed.

Lemma silent_lift {A} (r : res A) : silent (lift r).
Proof. by intros st. Qed.

Lemma silent_bind {A B} (m : M A) (k : A -> M B) :
  silent m -> (forall a, silent (k a)) -> silent (bind m k).
Proof.
  intros Hm Hk st. unfold bind. specialize (Hm st).
  destruct (m st) as [[a|e] st1]; simpl in *; [|done].
  by rewrite Hk.
Qed.

Lemma silent_try_except {A} (m : M A) (h : pyexc -> M A) :
  silent m -> (forall e, silent (h e)) -> silent (try_except m h).
Proof.
  intros Hm Hh st. unfold try_except. specialize (Hm st).
  destruct (m st) as [[a|e] st1]; simpl in *; [done|].
  by rewrite Hh.
Qed.

Lemma silent_alloc d : silent (alloc d).
Proof. by intros st. Qed.

Lemma silent_deref l : silent (deref l).
Proof. by intros st. Qed.

Lemma silent_update_at l other : silent (update_at l other).
Proof. by intros st. Qed.

Lemma silent_call_client m meth c : silent (call_client m meth c).
Proof. intros st. by destruct m. Qed.

Lemma silent_argv_at argv i : silent (argv_at argv i).
Proof. intros st. unfold argv_at. by destruct (argv !! i). Qed.

End Silence.

Create HintDb silence.
#[export] Hint Resolve silent_ret silent_raise silent_lift silent_alloc
  silent_deref silent_update_at silent_call_client silent_argv_at : silence.

Ltac silence :=
  repeat first
    [ apply silent_bind; [|intros ?]
    | apply silent_try_except; [|intros ?]
    | solve [auto with silence]
    | match goal with
      | |- silent (if ?b then _ else _) => destruct b
      | |- silent (match ?x with _ => _ end) => destruct x
      end ].

Lemma silent_add_memory w self messages user_id metadata :
  silent (Mem0Bridge.add_memory w self messages user_id metadata).
Proof. unfold Mem0Bridge.add_memory, Mem0Bridge.metadata_object. silence. Qed.

Lemma silent_search_memory w self query user_id limit :
  silent (Mem0Bridge.search_memory w self query user_id limit).
Proof. unfold Mem0Bridge.search_memory. silence. Qed.

Lemma silent_get_all_memories w self user_id :
  silent (Mem0Bridge.get_all_memories w self user_id).
Proof. unfold Mem0Bridge.get_all_memories. silence. Qed.

Lemma silent_update_memory w self memory_id data :
  silent (Mem0Bridge.update_memory w self memory_id data).
Proof. unfold Mem0Bridge.update_memory. silence. Qed.

Lemma silent_delete_memory w self memory_id :
  silent (Mem0Bridge.delete_memory w self memory_id).
Proof. unfold Mem0Bridge.delete_memory. silence. Qed.

Lemma silent_health_check w self :
  silent (Mem0Bridge.health_check w self).
Proof. unfold Mem0Bridge.health_check. silence. Qed.

#[export] Hint Resolve silent_add_memory silent_search_memory
  silent_get_all_memories silent_update_memory silent_delete_memory
  silent_health_check : silence.

(** The three operations that return the client's result as it is. *)
Lemma update_memory_run w self memory_id data st :
  initialized self = true ->
  Mem0Bridge.update_memory w self memory_id data st
  = match call_client (memory self) "update" (CUpdate memory_id data) st with
    | (Ok r, st') => (Ok (envelope_result r), st')
    | (Raise e, st') => (Ok (envelope_error e), st')
    end.
Proof.
  intros Hinit. unfold Mem0Bridge.update_memory. rewrite Hinit. simpl.
  unfold try_except, bind, ret.
  by destruct (call_client _ _ _ st) as [[r|e] st'].
Qed.

Lemma delete_memory_run w self memory_id st :
  initialized self = true ->
  Mem0Bridge.delete_memory w self memory_id st
  = match call_client (memory self) "delete" (CDelete memory_id) st with
    | (Ok r, st') => (Ok (envelope_result r), st')
    | (Raise e, st') => (Ok (envelope_error e), st')
    end.
Proof.
  intros Hinit. unfold Mem0Bridge.delete_memory. rewrite Hinit. simpl.
  unfold try_except, bind, ret.
  by destruct (call_client _ _ _ st) as [[r|e] st'].
Qed.

(** The two operations that log the [len] of the results. *)
Lemma search_memory_run w self query user_id limit st :
  initialized self = true ->
  Mem0Bridge.search_memory w self query user_id limit st
  = match call_client (memory self) "search"
            (CSearch query user_id limit) st with
    | (Ok v, st') =>
        (Ok match py_len v with
            | Ok _ => envelope_results v
            | Raise e => envelope_error e
            end, st')
    | (Raise e, st') => (Ok (envelope_error e), st')
    end.
Proof.
  intros Hinit. unfold Mem0Bridge.search_memory. rewrite Hinit. simpl.
  unfold try_except, bind, ret, lift.
  destruct (call_client _ _ _ st) as [[v|e] st']; [|done].
  by destruct (py_len v).
Qed.

Lemma get_all_memories_run w self user_id st :
  initialized self = true ->
  Mem0Bridge.get_all_memories w self user_id st
  = match call_client (memory self) "get_all" (CGetAll user_id) st with
    | (Ok v, st') =>
        (Ok match py_len v with
            | Ok _ => envelope_results v
            | Raise e => envelope_error e
            end, st')
    | (Raise e, st') => (Ok (envelope_error e), st')
    end.
Proof.
  intros Hinit. unfold Mem0Bridge.get_all_memories. rewrite Hinit. simpl.
  unfold try_except, bind, ret, lift.
  destruct (call_client _ _ _ st) as [[v|e] st']; [|done].
  by destruct (py_len v).
Qed.

(** Past the gate no operation raises: each returns an envelope. *)
Lemma add_memory_returns w self messages user_id metadata st :
  initialized self = true ->
  exists env st',
    Mem0Bridge.add_memory w self messages user_id metadata st = (Ok env, st')
    /\ operation_envelope env.
Proof.
  intros Hinit. unfold Mem0Bridge.add_memory. rewrite Hinit. simpl.
  unfold try_except, bind.
  destruct (Mem0Bridge.metadata_object metadata st) as [[l|e] st1];
    [|eexists _, _; split; [reflexivity|constructor]].
  unfold update_at, deref, ret; simpl.
  destruct (call_client _ _ _ _) as [[r|e] st2];
    eexists _, _; (split; [reflexivity|constructor]).
Qed.

Lemma search_memory_returns w self query user_id limit st :
  initialized self = true ->
  exists env st',
    Mem0Bridge.search_memory w self query user_id limit st = (Ok env, st')
    /\ operation_envelope env.
Proof.
  intros Hinit. rewrite search_memory_run by done.
  destruct (call_client _ _ _ st) as [[v|e] st1];
    [destruct (py_len v)|]; eexists _, _; (split; [reflexivity|constructor]).
Qed.

Lemma get_all_memories_returns w self user_id st :
  initialized self = true ->
  exists env st',
    Mem0Bridge.get_all_memories w self user_id st = (Ok env, st')
    /\ operation_envelope env.
Proof.
  intros Hinit. rewrite get_all_memories_run by done.
  destruct (call_client _ _ _ st) as [[v|e] st1];
    [destruct (py_len v)|]; eexists _, _; (split; [reflexivity|constructor]).
Qed.

Lemma update_memory_returns w self memory_id data st :
  initialized self = true ->
  exists env st',
    Mem0Bridge.update_memory w self memory_id data st = (Ok env, st')
    /\ operation_envelope env.
Proof.
  intros Hinit. rewrite update_memory_run by done.
  destruct (call_client _ _ _ st) as [[v|e] st1];
    eexists _, _; (split; [reflexivity|constructor]).
Qed.

Lemma delete_memory_returns w self memory_id st :
  initialized self = true ->
  exists env st',
    Mem0Bridge.delete_memory w self memory_id st = (Ok env, st')
    /\ operation_envelope env.
Proof.
  intros Hinit. rewrite delete_memory_run by done.
  destruct (call_client _ _ _ st) as [[v|e] st1];
    eexists _, _; (split; [reflexivity|constructor]).
Qed.

Lemma operation_envelope_contract env :
  operation_envelope env -> envelope_contract ["result"; "results"] env = true.
Proof. by intros []. Qed.

(** ** The health check *)

Lemma health_check_run w self st :
  Mem0Bridge.health_check w self st
  = if initialized self then
      match call_client (memory self) "search"
              (CSearch "test" "health_check" 1%Z) st with
      | (Ok v, st') =>
          (Ok match py_len v with
              | Ok n =>
                  envelope_status
                    (health_status w true true
                       ("Search test successful: " ++ pretty n ++ " results"))
              | Raise e => envelope_error e
              end, st')
      | (Raise e, st') => (Ok (envelope_error e), st')
      end
    else
      (Ok (envelope_status
             (health_status w false false "mem0 not initialized")), st).
Proof.
  unfold Mem0Bridge.health_check, try_except, bind, ret, lift.
  destruct (initialized self); [|reflexivity].
  destruct (call_client _ _ _ st) as [[v|e] st']; [|done].
  by destruct (py_len v).
Qed.

Lemma call_client_probe self st :
  fst (call_client (memory self) "search"
         (CSearch "test" "health_check" 1%Z) st)
  = match memory self with
    | None =>
        Raise (Exc AttributeError "'NoneType' object has no attribute 'search'")
    | Some cl => cl (CSearch "test" "health_check" 1%Z)
    end.
Proof. unfold call_client. by destruct (memory self). Qed.

(** C1, as the code has it. [health_check] never raises. When initialization
    failed, or it succeeded and the probe (the trivial search and the [len]
    of its result) did not raise, it returns [{success: true, status}] and
    [status.functional] is the [initialized] flag. When the bridge is
    initialized and the probe raises, it returns the error envelope
    [{success: false, error}] of that exception, which has no status. *)
Theorem health_check_reports w self st :
  exists env,
    fst (Mem0Bridge.health_check w self st) = Ok env
    /\ match (if initialized self then probe self else Ok 0) with
       | Ok _ =>
           exists status,
             env = envelope_status status
             /\ dict_get "functional" status = Some (VBool (initialized self))
       | Raise e => env = envelope_error e
       end.
Proof.
  rewrite health_check_run. unfold probe.
  destruct (initialized self) eqn:Hinit.
  - pose proof (call_client_probe self st) as Hp.
    destruct (call_client _ _ _ st) as [[v|e] st']; simpl in Hp.
    + destruct (memory self) as [cl|]; [|discriminate]. rewrite <- Hp.
      destruct (py_len v) as [n|e]; eexists; (split; [reflexivity|]).
      * eexists; split; reflexivity.
      * reflexivity.
    + destruct (memory self) as [cl|]; [rewrite <- Hp|injection Hp as <-];
        eexists; (split; reflexivity).
  - eexists; split; [reflexivity|]. eexists; split; reflexivity.
Qed.

(** The sample bridges are the ones the constructor builds in their
    worlds. *)
Example sample_bridges_constructed :
  fst (Mem0Bridge.__init__ world_ok sample_config initial_state) = Ok bridge_ok
  /\ fst (Mem0Bridge.__init__ world_down sample_config initial_state)
     = Ok bridge_down
  /\ fst (Mem0Bridge.__init__ world_no_key sample_config initial_state)
     = Ok bridge_failed
  /\ env_config world_down = sample_config.
Proof. repeat split; reflexivity. Qed.

(** C1, as the claim has it, fails: on an initialized bridge whose client
    raises on the probe, the envelope has [success = false] and no status;
    the [health] command prints that envelope. *)
Lemma health_check_probe_failure :
  initialized bridge_down = true
  /\ fst (Mem0Bridge.health_check world_down bridge_down initial_state)
     = Ok (VDict [("success", VBool false);
                  ("error", VStr "connection refused")])
  /\ (~ exists status,
        fst (Mem0Bridge.health_check world_down bridge_down initial_state)
        = Ok (envelope_status status))
  /\ printed world_down ["mem0-bridge.py"; "health"]
     = [VDict [("success", VBool false);
               ("error", VStr "connection refused")]].
Proof.
  split; [reflexivity|]. split; [reflexivity|]. split; [|reflexivity].
  intros [status H]. vm_compute in H. discriminate.
Qed.

(** ** The envelope contract *)

Lemma health_check_contract w self st :
  exists env st',
    Mem0Bridge.health_check w self st = (Ok env, st')
    /\ envelope_contract ["status"] env = true.
Proof.
  rewrite health_check_run.
  destruct (initialized self); [|by eexists _, _].
  destruct (call_client _ _ _ st) as [[v|e] st']; [|by eexists _, _].
  destruct (py_len v); by eexists _, _.
Qed.

(** C2, as the code has it. Every envelope a data operation returns has a
    boolean [success] and exactly one of the keys [result], [results] and
    [error]: [result] or [results] when [success] is true, [error] when it is
    false. The envelope of [health_check] obeys the same contract with the
    key [status] in the place of [result] and [results]. *)
Theorem envelopes_keyed_to_success
    w (self : Bridge) st messages user_id metadata query limit memory_id data :
  initialized self = true ->
  (exists env st',
      Mem0Bridge.add_memory w self messages user_id metadata st = (Ok env, st')
      /\ envelope_contract ["result"; "results"] env = true)
  /\ (exists env st',
      Mem0Bridge.search_memory w self query user_id limit st = (Ok env, st')
      /\ envelope_contract ["result"; "results"] env = true)
  /\ (exists env st',
      Mem0Bridge.get_all_memories w self user_id st = (Ok env, st')
      /\ envelope_contract ["result"; "results"] env = true)
  /\ (exists env st',
      Mem0Bridge.update_memory w self memory_id data st = (Ok env, st')
      /\ envelope_contract ["result"; "results"] env = true)
  /\ (exists env st',
      Mem0Bridge.delete_memory w self memory_id st = (Ok env, st')
      /\ envelope_contract ["result"; "results"] env = true)
  /\ (forall other st0,
      exists env st',
        Mem0Bridge.health_check w other st0 = (Ok env, st')
        /\ envelope_contract ["status"] env = true).
Proof.
  intros Hinit.
  pose proof (add_memory_returns w self messages user_id metadata st Hinit)
    as (e1 & s1 & R1 & O1).
  pose proof (search_memory_returns w self query user_id limit st Hinit)
    as (e2 & s2 & R2 & O2).
  pose proof (get_all_memories_returns w self user_id st Hinit)
    as (e3 & s3 & R3 & O3).
  pose proof (update_memory_returns w self memory_id data st Hinit)
    as (e4 & s4 & R4 & O4).
  pose proof (delete_memory_returns w self memory_id st Hinit)
    as (e5 & s5 & R5 & O5).
  repeat split;
    try (eexists _, _; split; [eassumption|];
         by apply operation_envelope_contract).
  intros other st0. apply health_check_contract.
Qed.

Lemma envelopes_keyed_to_success_witness :
  initialized bridge_ok = true
  /\ exists env st',
      Mem0Bridge.search_memory world_ok bridge_ok "hello" "user1" 5%Z
        initial_state = (Ok env, st')
      /\ envelope_contract ["result"; "results"] env = true.
Proof.
  split; [reflexivity|].
  refine (proj1 (proj2 (envelopes_keyed_to_success world_ok bridge_ok
            initial_state VNone "user1" (Imm VNone) "hello" 5%Z "m1" VNone _))).
  reflexivity.
Defined.

(** C2, as the claim has it, fails for [health_check]: its success envelope
    has none of the keys [result], [results] and [error]. *)
Lemma health_check_envelope_has_no_result :
  fst (Mem0Bridge.health_check world_no_key bridge_failed initial_state)
  = Ok (envelope_status
          (health_status world_no_key false false "mem0 not initialized"))
  /\ envelope_contract ["result"; "results"]
       (envelope_status
          (health_status world_no_key false false "mem0 not initialized"))
     = false.
Proof. split; reflexivity. Qed.

(** ** Construction of the bridge *)

Lemma read_config_ok w st :
  ports_parse w -> read_config w st = (Ok (env_config w), st).
Proof.
  intros [[q Hq] [m Hm]].
  unfold read_config, env_config, bind, lift, ret.
  by rewrite Hq, Hm.
Qed.

Lemma connectivity_check_swallows w self st :
  Mem0Bridge.connectivity_check w self st = (Ok tt, st).
Proof.
  unfold Mem0Bridge.connectivity_check.
  case_bool_decide; [reflexivity|].
  unfold try_except, bind, lift, ret.
  by destruct (requests_get w _).
Qed.

Lemma init_total w cfg st :
  Mem0Bridge.__init__ w cfg st = (Ok (built w cfg), st).
Proof.
  unfold Mem0Bridge.__init__, Mem0Bridge._initialize_memory, built,
    initialization_raises, try_except, bind.
  destruct (getenv w "OPENAI_API_KEY") as [k|]; [|reflexivity].
  destruct (String.eqb k ""); [reflexivity|].
  unfold ret at 1. simpl.
  rewrite connectivity_check_swallows. unfold lift, ret. simpl.
  by destruct (Memory_from_config w _).
Qed.

Lemma built_initialized w cfg :
  initialized (built w cfg) = negb (initialization_raises w cfg).
Proof.
  unfold built. destruct (initialization_raises w cfg) eqn:E; [reflexivity|].
  unfold initialization_raises in E.
  destruct (getenv w "OPENAI_API_KEY"); [|discriminate].
  destruct (String.eqb _ _); [discriminate|].
  by destruct (Memory_from_config w _).
Qed.

Lemma built_memory w cfg :
  memory (built w cfg)
  = if initialized (built w cfg)
    then match Memory_from_config w (Mem0Bridge.build_mem0_config w cfg) with
         | Ok cl => Some cl
         | Raise _ => None
         end
    else None.
Proof.
  unfold built. destruct (initialization_raises w cfg) eqn:E; [reflexivity|].
  by destruct (Memory_from_config w _).
Qed.

(** ** The dispatcher *)

Lemma main_run w prog command rest st :
  ports_parse w ->
  main w (prog :: command :: rest) st
  = try_except
      (do run_command w (built w (env_config w)) (prog :: command :: rest)
            command then
       ret 0%Z)
      (fun e => do print_json (top_level_error (exc_msg e)) then ret 1%Z)
      st.
Proof.
  intros Hports. unfold main. simpl.
  unfold bind at 1. rewrite read_config_ok by done.
  unfold bind at 1. unfold try_except at 1. unfold bind at 1.
  rewrite init_total. reflexivity.
Qed.

(** What [main] makes of the outcome of the [try]. *)
Lemma main_outcome w prog command rest st :
  ports_parse w ->
  main w (prog :: command :: rest) st
  = match run_command w (built w (env_config w)) (prog :: command :: rest)
            command st with
    | (Ok _, st') => (Ok 0%Z, st')
    | (Raise e, st') =>
        (Ok 1%Z,
         State (heap st') (calls st')
           (stdout st' ++ [top_level_error (exc_msg e)]))
    end.
Proof.
  intros Hports. rewrite main_run by done.
  unfold try_except, bind.
  by destruct (run_command _ _ _ _ st) as [[[]|e] st'].
Qed.

Section PrintsLast.

Lemma prints_last_print_json v : prints_last (print_json v).
Proof.
  intros st. unfold print_json.
  destruct (json_unserializable v); simpl; eauto.
Qed.

Lemma prints_last_raise e : prints_last (raise e).
Proof. by intros st. Qed.

Lemma prints_last_bind {A} (m : M A) (k : A -> M unit) :
  silent m -> (forall a, prints_last (k a)) -> prints_last (bind m k).
Proof.
  intros Hm Hk st. unfold bind. specialize (Hm st).
  destruct (m st) as [[a|e] st1]; simpl in *; [|done].
  specialize (Hk a st1). destruct (k a st1) as [[[]|e] st2];
    by rewrite <- Hm.
Qed.

End PrintsLast.

Ltac prints_last :=
  repeat first
    [ apply prints_last_print_json
    | apply prints_last_raise
    | apply prints_last_bind; [solve [silence]|intros ?]
    | match goal with
      | |- prints_last (if ?b then _ else _) => destruct b
      end ].

Lemma run_command_prints_last w bridge argv command :
  prints_last (run_command w bridge argv command).
Proof. unfold run_command. prints_last. Qed.

(** With ports that parse, a process prints one document: an envelope with
    status 0, or a top-level error with status 1. *)
Lemma one_document w argv :
  ports_parse w ->
  exists v,
    printed w argv = [v]
    /\ (status_of w argv = 0%Z
        \/ status_of w argv = 1%Z /\ exists msg, v = top_level_error msg).
Proof.
  intros Hports. unfold printed, status_of, run.
  destruct argv as [|prog [|command rest]];
    [eexists; split; [reflexivity|right; eauto]..|].
  rewrite main_outcome by done.
  pose proof (run_command_prints_last w (built w (env_config w))
                (prog :: command :: rest) command initial_state) as H.
  destruct (run_command _ _ _ _ _) as [[[]|e] st1]; simpl in *.
  - destruct H as [v Hv]. exists v. auto.
  - rewrite H. eexists; split; [reflexivity|right; eauto].
Qed.

(** A dispatched invocation runs its bridge call and prints what it
    returns. *)
Lemma dispatch_runs w bridge argv m st :
  dispatches w bridge argv m ->
  run_command w bridge argv (default "" (argv !! 1)) st
  = (let* result := m in print_json result) st.
Proof.
  intros [prog uid msg j rest md Hj|prog uid q|prog uid q s rest n Hn
         |prog uid rest|prog mid j rest data Hj|prog mid rest];
    unfold run_command, argv_at, bind, lift, ret; simpl;
    rewrite ?Hj, ?Hn; reflexivity.
Qed.

(** A dispatcher-level error leaves the [try] of [main] as an exception that
    carries its message, before any bridge call. *)
Lemma dispatcher_error_raises w bridge prog command rest msg st :
  dispatcher_error w (prog :: command :: rest) msg ->
  exists e,
    exc_msg e = msg
    /\ run_command w bridge (prog :: command :: rest) command st = (Raise e, st).
Proof.
  intros H. inversion H as
    [argv Hlen|prog' rest' Hlen|prog' uid m j rest' e Hj|prog' rest' Hlen|prog'
    |prog' rest' Hlen|prog' mid j rest' e Hj|prog'|prog' cmd rest' Hcmd];
    subst; unfold run_command; simpl in *.
  - lia.
  - eexists; split; [|destruct (Nat.ltb_spec (S (S (List.length rest))) 5);
                      [reflexivity|lia]]; reflexivity.
  - exists e. split; [reflexivity|].
    unfold argv_at, bind, lift, ret; simpl. by rewrite Hj.
  - eexists; split; [|destruct (Nat.ltb_spec (S (S (List.length rest))) 4);
                      [reflexivity|lia]]; reflexivity.
  - eexists; split; [|reflexivity]; reflexivity.
  - eexists; split; [|destruct (Nat.ltb_spec (S (S (List.length rest))) 4);
                      [reflexivity|lia]]; reflexivity.
  - exists e. split; [reflexivity|].
    unfold argv_at, bind, lift, ret; simpl. by rewrite Hj.
  - eexists; split; [|reflexivity]; reflexivity.
  - unfold commands in Hcmd. rewrite !not_elem_of_cons in Hcmd.
    destruct Hcmd as (H1 & H2 & H3 & H4 & H5 & H6 & _).
    apply String.eqb_neq in H1, H2, H3, H4, H5, H6.
    rewrite H1, H2, H3, H4, H5, H6.
    eexists; split; [|reflexivity]; reflexivity.
Qed.

Lemma dispatcher_error_run w argv msg :
  ports_parse w ->
  dispatcher_error w argv msg ->
  run w argv = (Ok 1%Z, State ∅ [] [top_level_error msg]).
Proof.
  intros Hports H. unfold run.
  destruct argv as [|prog [|command rest]].
  - inversion H; subst. reflexivity.
  - inversion H; subst. reflexivity.
  - rewrite main_outcome by done.
    destruct (dispatcher_error_raises w (built w (env_config w)) prog command
                rest msg initial_state H) as (e & He & Hrun).
    rewrite Hrun, He. reflexivity.
Qed.

(** On a bridge that is not initialized every command but [health] ends the
    [try] of [main] with an exception. *)
Lemma uninitialized_command_raises w bridge argv command st :
  initialized bridge = false ->
  command <> "health" ->
  exists e st', run_command w bridge argv command st = (Raise e, st').
Proof.
  intros Hinit Hcmd. apply String.eqb_neq in Hcmd.
  unfold run_command, Mem0Bridge.add_memory, Mem0Bridge.search_memory,
    Mem0Bridge.get_all_memories, Mem0Bridge.update_memory,
    Mem0Bridge.delete_memory, argv_at, bind, lift, ret, raise.
  rewrite Hinit, Hcmd. simpl.
  repeat match goal with
         | |- context [if ?b then _ else _] => destruct b
         | |- context [match ?x with _ => _ end] => destruct x; simpl
         end; eauto.
Qed.

Lemma dispatched_uninitialized w bridge argv m st :
  initialized bridge = false ->
  dispatches w bridge argv m ->
  m st = (Raise not_initialized, st).
Proof.
  intros Hinit [];
    unfold Mem0Bridge.add_memory, Mem0Bridge.search_memory,
      Mem0Bridge.get_all_memories, Mem0Bridge.update_memory,
      Mem0Bridge.delete_memory; by rewrite Hinit.
Qed.

Lemma dispatches_command w bridge argv m :
  dispatches w bridge argv m ->
  exists prog command rest,
    argv = prog :: command :: rest /\ argv !! 1 = Some command.
Proof. intros []; eexists _, _, _; split; reflexivity. Qed.

(** The process of a dispatched invocation, from the outcome of its bridge
    call. *)
Lemma dispatched_run w argv m :
  ports_parse w ->
  dispatches w (built w (env_config w)) argv m ->
  run w argv
  = match m initial_state with
    | (Ok env, st') =>
        match json_unserializable env with
        | None => (Ok 0%Z, State (heap st') (calls st') (stdout st' ++ [env]))
        | Some n =>
            (Ok 1%Z,
             State (heap st') (calls st')
               (stdout st'
                ++ [top_level_error
                      ("Object of type " ++ n ++ " is not JSON serializable")]))
        end
    | (Raise e, st') =>
        (Ok 1%Z,
         State (heap st') (calls st')
           (stdout st' ++ [top_level_error (exc_msg e)]))
    end.
Proof.
  intros Hports Hd.
  destruct (dispatches_command _ _ _ _ Hd) as (prog & command & rest & -> & Hc).
  unfold run. rewrite main_outcome by done.
  pose proof (dispatch_runs w _ _ m initial_state Hd) as Hrun.
  rewrite Hc in Hrun. simpl in Hrun. rewrite Hrun.
  unfold bind, print_json.
  destruct (m initial_state) as [[env|e] st']; [|reflexivity].
  by destruct (json_unserializable env).
Qed.

(** ** The [add] command *)

(** C5, as the code has it. The metadata JSON argument of [add] is required:
    an invocation with a user id and a message only prints the usage error
    of the dispatcher, exits with status 1 and calls nothing. With a metadata
    argument the message is wrapped as a single chat-style entry and
    [add_memory] is called with it, the user id and the parsed metadata. *)
Theorem add_requires_metadata w prog uid msg :
  ports_parse w ->
  run w [prog; "add"; uid; msg]
  = (Ok 1%Z,
     State ∅ []
       [top_level_error "Usage: add <user_id> <message> <metadata_json>"])
  /\ forall bridge j rest st,
      run_command w bridge (prog :: "add" :: uid :: msg :: j :: rest) "add" st
      = (let* metadata := lift (json_loads w j) in
         let* result :=
           Mem0Bridge.add_memory w bridge
             (VList [VDict [("role", VStr "user"); ("content", VStr msg)]])
             uid (Imm metadata) in
         print_json result) st.
Proof.
  intros Hports. split.
  - apply dispatcher_error_run; [done|].
    apply (de_add_args w prog [uid; msg]). simpl. lia.
  - intros bridge j rest st. reflexivity.
Qed.

Lemma add_requires_metadata_witness :
  ports_parse world_ok
  /\ run world_ok ["mem0-bridge.py"; "add"; "user1"; "hi"]
     = (Ok 1%Z,
        State ∅ []
          [top_level_error "Usage: add <user_id> <message> <metadata_json>"]).
Proof.
  assert (H : ports_parse world_ok) by (split; by eexists).
  split; [exact H|].
  exact (proj1 (add_requires_metadata world_ok "mem0-bridge.py" "user1" "hi" H)).
Defined.

(** C5, as the claim has it, fails: with the three arguments [add], a user id
    and a message, and a bridge that works, the dispatcher prints its usage
    error with status 1 and the client is never called. *)
Lemma add_without_metadata_is_rejected :
  printed world_ok ["mem0-bridge.py"; "add"; "user1"; "hi"]
  = [VDict [("error", VStr "Usage: add <user_id> <message> <metadata_json>")]]
  /\ status_of world_ok ["mem0-bridge.py"; "add"; "user1"; "hi"] = 1%Z
  /\ calls (snd (run world_ok ["mem0-bridge.py"; "add"; "user1"; "hi"])) = [].
Proof. repeat split; reflexivity. Qed.

(** ** One document per invocation *)

(** A port that is no integer literal ends [main] before anything is
    printed. *)
Lemma unparsable_port_crashes w prog command rest e :
  py_int w (getenv_or w "QDRANT_PORT" "6333") = Raise e ->
  fst (run w (prog :: command :: rest)) = Raise e
  /\ printed w (prog :: command :: rest) = [].
Proof.
  intros H. unfold printed, run, main, read_config, bind, lift; simpl.
  rewrite H. simpl. eauto.
Qed.

(** C6 fails on the code. With [QDRANT_PORT=abc] the [health] command leaves
    [main] by the [ValueError] of [int], raised where the configuration is
    read, outside every [try]: nothing is printed on standard output and the
    status is 1. *)
Theorem bad_port_prints_nothing :
  run world_bad_port ["mem0-bridge.py"; "health"]
  = (Raise (Exc ValueError "invalid literal for int() with base 10: 'abc'"),
     initial_state)
  /\ printed world_bad_port ["mem0-bridge.py"; "health"] = []
  /\ status_of world_bad_port ["mem0-bridge.py"; "health"] = 1%Z.
Proof. repeat split; reflexivity. Qed.

(** ** The [search] command *)



(** The scenario of the specification: [search <user_id> hello 5] with a
    working client that returns three records. *)
Example search_scenario :
  run world_ok ["mem0-bridge.py"; "search"; "user1"; "hello"; "5"]
  = (Ok 0%Z,
     State ∅ [CSearch "hello" "user1" 5%Z]
       [VDict [("success", VBool true); ("results", records)]]).
Proof. reflexivity. Qed.

(** ** The two tiers of errors *)






(** The scenario of the specification: [add user1 hi <metadata>] with a
    failing downstream call. *)
Example add_failure_scenario :
  printed world_down ["mem0-bridge.py"; "add"; "user1"; "hi"; "{}"]
  = [VDict [("success", VBool false); ("error", VStr "connection refused")]]
  /\ status_of world_down ["mem0-bridge.py"; "add"; "user1"; "hi"; "{}"] = 0%Z.
Proof. split; reflexivity. Qed.

(** ** A failed initialization *)

Lemma missing_key_raises w cfg :
  getenv w "OPENAI_API_KEY" = None -> initialization_raises w cfg = true.
Proof. intros H. unfold initialization_raises. by rewrite H. Qed.

Lemma health_run w prog rest :
  ports_parse w ->
  initialized (built w (env_config w)) = false ->
  run w (prog :: "health" :: rest)
  = (Ok 0%Z,
     State ∅ []
       [envelope_status (health_status w false false "mem0 not initialized")]).
Proof.
  intros Hports Hinit. unfold run. rewrite main_outcome by done.
  unfold run_command; simpl. unfold bind.
  rewrite health_check_run, Hinit. reflexivity.
Qed.

(** C8. The constructor never raises: it returns a bridge and leaves the
    state as it was, and when an exception is raised during initialization
    (the API key is missing or empty, or the client cannot be built) the
    bridge has [initialized = false] and no client. In a process with such a
    bridge every dispatched data command ends in the not-initialized error,
    printed at top level with status 1; every command but [health] exits with
    status 1 and a top-level error; and [health] exits with status 0 and
    reports [initialized] and [functional] as false. *)
Theorem failed_initialization_degrades w cfg st :
  ports_parse w ->
  initialization_raises w (env_config w) = true ->
  Mem0Bridge.__init__ w cfg st = (Ok (built w cfg), st)
  /\ initialized (built w cfg) = negb (initialization_raises w cfg)
  /\ (initialized (built w cfg) = false -> memory (built w cfg) = None)
  /\ (getenv w "OPENAI_API_KEY" = None -> initialized (built w cfg) = false)
  /\ (forall argv m,
        dispatches w (built w (env_config w)) argv m ->
        m initial_state = (Raise not_initialized, initial_state)
        /\ run w argv
           = (Ok 1%Z,
              State ∅ [] [VDict [("error", VStr "mem0 not initialized")]]))
  /\ (forall prog command rest,
        command <> "health" ->
        status_of w (prog :: command :: rest) = 1%Z
        /\ exists msg,
            printed w (prog :: command :: rest) = [VDict [("error", VStr msg)]])
  /\ (forall prog rest,
        run w (prog :: "health" :: rest)
        = (Ok 0%Z,
           State ∅ []
             [VDict
                [("success", VBool true);
                 ("status",
                  VDict
                    [("initialized", VBool false);
                     ("timestamp", VStr (now_isoformat w));
                     ("config",
                      VDict
                        [("vector_store", VStr "qdrant");
                         ("graph_store", VStr "memgraph");
                         ("embedder", VStr "openai")]);
                     ("functional", VBool false);
                     ("test_result", VStr "mem0 not initialized")])]])).
Proof.
  intros Hports Hfail.
  assert (Hinit : initialized (built w (env_config w)) = false)
    by (by rewrite built_initialized, Hfail).
  split; [apply init_total|].
  split; [apply built_initialized|].
  split; [intros H; by rewrite built_memory, H|].
  split; [intros H; by rewrite built_initialized, missing_key_raises|].
  split; [|split].
  - intros argv m Hd.
    pose proof (dispatched_uninitialized w _ argv m initial_state Hinit Hd)
      as Hm.
    split; [exact Hm|].
    rewrite (dispatched_run w argv m Hports Hd), Hm. reflexivity.
  - intros prog command rest Hcmd.
    unfold status_of, printed, run. rewrite main_outcome by done.
    destruct (uninitialized_command_raises w (built w (env_config w))
                (prog :: command :: rest) command initial_state Hinit Hcmd)
      as (e & st' & Hrun).
    pose proof (run_command_prints_last w (built w (env_config w))
                  (prog :: command :: rest) command initial_state) as Hp.
    rewrite Hrun in *. simpl in *. split; [reflexivity|].
    exists (exc_msg e). by rewrite Hp.
  - intros prog rest. by apply health_run.
Qed.

Lemma failed_initialization_degrades_witness :
  ports_parse world_no_key
  /\ initialization_raises world_no_key (env_config world_no_key) = true
  /\ run world_no_key ["mem0-bridge.py"; "get_all"; "user1"]
     = (Ok 1%Z, State ∅ [] [VDict [("error", VStr "mem0 not initialized")]])
  /\ status_of world_no_key ["mem0-bridge.py"; "health"] = 0%Z.
Proof.
  assert (H : ports_parse world_no_key) by (split; by eexists).
  assert (F : initialization_raises world_no_key (env_config world_no_key)
              = true) by reflexivity.
  pose proof (failed_initialization_degrades world_no_key sample_config
                initial_state H F) as (_ & _ & _ & _ & Hdata & _ & Hhealth).
  split; [exact H|]. split; [exact F|]. split.
  - apply (Hdata _ (Mem0Bridge.get_all_memories world_no_key
                      (built world_no_key (env_config world_no_key)) "user1")).
    apply d_get_all.
  - unfold status_of. by rewrite Hhealth.
Defined.


(** * Further properties of the bridge *)

(** ** Results that have no length *)

Lemma py_len_sized v :
  py_len v
  = if sized v
    then Ok match v with
            | VStr s => utf8_length s
            | VList l => List.length l
            | VDict d => List.length d
            | VObj _ _ (Some n) => n
            | _ => 0
            end
    else Raise (Exc TypeError
                  ("object of type '" ++ len_type_name v ++ "' has no len()")).
Proof. destruct v as [| | | | | | |c t [n|]]; reflexivity. Qed.

(** X1. [search_memory] and [get_all_memories] take the [len] of what the
    client returned for their log line: a value that has a length (a string,
    a list, a dictionary, an object with a [len]) comes back unchanged in
    [{success: true, results}], and any value without one ([None], a number,
    an object without a [len]) turns the call, which the client did answer,
    into the error envelope of the [TypeError] of [len], which names the
    type of the value. *)
Theorem results_need_a_length
    w (self : Bridge) cl st query user_id limit v v' :
  initialized self = true ->
  memory self = Some cl ->
  cl (CSearch query user_id limit) = Ok v ->
  cl (CGetAll user_id) = Ok v' ->
  Mem0Bridge.search_memory w self query user_id limit st
  = (Ok (if sized v then VDict [("success", VBool true); ("results", v)]
         else VDict [("success", VBool false);
                     ("error",
                      VStr ("object of type '" ++ len_type_name v
                            ++ "' has no len()"))]),
     State (heap st) (calls st ++ [CSearch query user_id limit]) (stdout st))
  /\ Mem0Bridge.get_all_memories w self user_id st
     = (Ok (if sized v' then VDict [("success", VBool true); ("results", v')]
            else VDict [("success", VBool false);
                        ("error",
                         VStr ("object of type '" ++ len_type_name v'
                               ++ "' has no len()"))]),
        State (heap st) (calls st ++ [CGetAll user_id]) (stdout st)).
Proof.
  intros Hinit Hmem Hv Hv'.
  rewrite search_memory_run, get_all_memories_run by done.
  rewrite Hmem. simpl. rewrite Hv, Hv', !py_len_sized.
  split; [by destruct (sized v)|by destruct (sized v')].
Qed.

Lemma results_need_a_length_witness :
  initialized bridge_odd = true
  /\ memory bridge_odd = Some odd_client
  /\ odd_client (CSearch "hello" "user1" 5%Z)
     = Ok (VObj "datetime" "datetime.datetime" None)
  /\ odd_client (CGetAll "user1") = Ok (VObj "set" "set" (Some 2))
  /\ fst (Mem0Bridge.search_memory world_odd bridge_odd "hello" "user1" 5%Z
            initial_state)
     = Ok (VDict [("success", VBool false);
                  ("error",
                   VStr "object of type 'datetime.datetime' has no len()")])
  /\ fst (Mem0Bridge.get_all_memories world_odd bridge_odd "user1"
            initial_state)
     = Ok (VDict [("success", VBool true);
                  ("results", VObj "set" "set" (Some 2))]).
Proof.
  do 4 (split; [reflexivity|]).
  pose proof (results_need_a_length world_odd bridge_odd odd_client
                initial_state "hello" "user1" 5%Z
                (VObj "datetime" "datetime.datetime" None)
                (VObj "set" "set" (Some 2))
                eq_refl eq_refl eq_refl eq_refl) as [H1 H2].
  split; [by rewrite H1|by rewrite H2].
Defined.

(** The same for the values of JSON: [None], a boolean and a number have no
    length. *)
Example results_without_length :
  fst (Mem0Bridge.search_memory world_ok
         (bridge_with world_ok (Some (fun _ => Ok VNone)) true)
         "hello" "user1" 5%Z initial_state)
  = Ok (VDict [("success", VBool false);
               ("error", VStr "object of type 'NoneType' has no len()")]).
Proof. reflexivity. Qed.

(** ** Metadata that is no dictionary *)

(** X2. When the metadata of [add_memory] is neither [None] nor a
    dictionary (a list, a string, a number read from the JSON argument), the
    call past the gate returns the error envelope of the [AttributeError] of
    [metadata.update]; the client is not called and nothing is changed. *)
Theorem add_memory_rejects_other_metadata
    w (self : Bridge) st messages user_id v :
  initialized self = true ->
  v <> VNone ->
  (forall d, v <> VDict d) ->
  Mem0Bridge.add_memory w self messages user_id (Imm v) st
  = (Ok (VDict [("success", VBool false);
                ("error",
                 VStr ("'" ++ py_type_name v
                       ++ "' object has no attribute 'update'"))]),
     st).
Proof.
  intros Hinit Hnone Hdict.
  unfold Mem0Bridge.add_memory. rewrite Hinit. simpl.
  destruct v; try reflexivity; [done|by destruct (Hdict d)].
Qed.

Lemma add_memory_rejects_other_metadata_witness :
  initialized bridge_ok = true
  /\ VList [VInt 1] <> VNone
  /\ (forall d, VList [VInt 1] <> VDict d)
  /\ Mem0Bridge.add_memory world_ok bridge_ok VNone "user1"
       (Imm (VList [VInt 1])) initial_state
     = (Ok (VDict [("success", VBool false);
                   ("error",
                    VStr "'list' object has no attribute 'update'")]),
        initial_state).
Proof.
  split; [reflexivity|]. split; [discriminate|]. split; [discriminate|].
  apply (add_memory_rejects_other_metadata world_ok bridge_ok initial_state
           VNone "user1" (VList [VInt 1]));
    [reflexivity|discriminate|discriminate].
Defined.

(** X3. With [None] for metadata, [add_memory] creates one new dictionary
    that holds the three injected entries, in the order [timestamp],
    [source], [user_id], and nothing else; it hands that object to the
    client and leaves every object that existed as it was. *)
Theorem add_memory_without_metadata
    w (self : Bridge) cl st messages user_id :
  initialized self = true ->
  memory self = Some cl ->
  let l := fresh (dom (heap st)) in
  let fresh_dict :=
    [("timestamp", VStr (now_isoformat w));
     ("source", VStr "autoweave");
     ("user_id", VStr user_id)] in
  let st' := snd (Mem0Bridge.add_memory w self messages user_id (Imm VNone) st)
  in
  heap st !! l = None
  /\ heap st' = <[l := fresh_dict]> (heap st)
  /\ calls st' = (calls st ++ [CAdd messages user_id l fresh_dict])%list
  /\ forall l', is_Some (heap st !! l') -> heap st' !! l' = heap st !! l'.
Proof.
  intros Hinit Hmem l fresh_dict st'.
  assert (Hfresh : heap st !! l = None)
    by (apply not_elem_of_dom, is_fresh).
  assert (Hrun : st' = State (<[l := fresh_dict]> (heap st))
                         (calls st ++ [CAdd messages user_id l fresh_dict])
                         (stdout st)).
  { subst st'. unfold Mem0Bridge.add_memory. rewrite Hinit, Hmem. simpl.
    unfold try_except, bind, Mem0Bridge.metadata_object, alloc, update_at,
      deref, call_client, ret, set_heap; simpl.
    rewrite !lookup_insert_eq; simpl. rewrite insert_insert_eq.
    by destruct (cl _). }
  rewrite Hrun. simpl. repeat split; try done.
  intros l' [d Hd]. rewrite lookup_insert_ne; [done|]. intros ->. congruence.
Qed.

Lemma add_memory_without_metadata_witness :
  initialized bridge_ok = true
  /\ memory bridge_ok = Some working_client
  /\ heap (snd (Mem0Bridge.add_memory world_ok bridge_ok VNone "user1"
                  (Imm VNone) (State {[ 0 := [("tag", VStr "x")] ]} [] [])))
     = <[ 1 := [("timestamp", VStr (now_isoformat world_ok));
                ("source", VStr "autoweave");
                ("user_id", VStr "user1")] ]>
         {[ 0 := [("tag", VStr "x")] ]}.
Proof.
  do 2 (split; [reflexivity|]).
  exact (proj1 (proj2 (add_memory_without_metadata world_ok bridge_ok
                         working_client
                         (State {[ 0 := [("tag", VStr "x")] ]} [] [])
                         VNone "user1" eq_refl eq_refl))).
Defined.

(** ** A metadata dictionary used twice *)

Section DictUpdateFacts.

Lemma dict_set_set k v1 v2 (d : dict) :
  dict_set k v2 (dict_set k v1 d) = dict_set k v2 d.
Proof.
  induction d as [|[k' v'] r IH]; simpl.
  - by rewrite String.eqb_refl.
  - destruct (String.eqb k k') eqn:E; simpl; rewrite E; [done|by rewrite IH].
Qed.

Lemma has_key_set k v (d : dict) : has_key k (dict_set k v d) = true.
Proof. unfold has_key. by rewrite dict_get_set_eq. Qed.

Lemma has_key_set_other k j v (d : dict) :
  has_key k d = true -> has_key k (dict_set j v d) = true.
Proof.
  unfold has_key. intros H.
  destruct (String.eqb_spec k j) as [->|Hne].
  - by rewrite dict_get_set_eq.
  - by rewrite dict_get_set_ne.
Qed.

(** Two assignments commute when the key of the outer one is there. *)
Lemma dict_set_comm k j v u (d : dict) :
  k <> j ->
  has_key k d = true ->
  dict_set k v (dict_set j u d) = dict_set j u (dict_set k v d).
Proof.
  intros Hne. unfold has_key.
  induction d as [|[k' v'] r IH]; simpl; [done|].
  destruct (String.eqb k k') eqn:Ek; destruct (String.eqb j k') eqn:Ej;
    simpl; rewrite ?Ek, ?Ej; try done.
  - apply String.eqb_eq in Ek, Ej. congruence.
  - intros H. by rewrite IH.
Qed.

Lemma injected_absorbs w1 u1 w2 u2 (d : dict) :
  dict_update (dict_update d (injected w1 u1)) (injected w2 u2)
  = dict_update d (injected w2 u2).
Proof.
  unfold dict_update, injected; simpl.
  set (t1 := VStr (now_isoformat w1)). set (t2 := VStr (now_isoformat w2)).
  rewrite (dict_set_comm "timestamp" "user_id") by
    (try discriminate; apply has_key_set_other, has_key_set).
  rewrite (dict_set_comm "timestamp" "source") by
    (try discriminate; apply has_key_set).
  rewrite dict_set_set.
  rewrite (dict_set_comm "source" "user_id") by
    (try discriminate; apply has_key_set).
  by rewrite !dict_set_set.
Qed.

End DictUpdateFacts.

(** The heap after a call of [add_memory] on the dictionary at [l]. *)
Lemma add_memory_heap w (self : Bridge) st messages user_id l d0 :
  initialized self = true ->
  heap st !! l = Some d0 ->
  heap (snd (Mem0Bridge.add_memory w self messages user_id (Ref l) st))
  = <[l := dict_update d0 (injected w user_id)]> (heap st).
Proof.
  intros Hinit Hl. unfold Mem0Bridge.add_memory. rewrite Hinit. simpl.
  unfold try_except, bind, Mem0Bridge.metadata_object, update_at, deref,
    call_client, ret, raise, set_heap; simpl.
  rewrite Hl; simpl. fold (injected w user_id).
  destruct (memory self) as [cl|]; simpl; [|reflexivity].
  by destruct (cl _).
Qed.

(** X4. A metadata dictionary handed to [add_memory] a second time keeps no
    trace of the first call: the generated entries of the first call are
    overwritten, so the heap is the one the second call alone would have
    left, whatever the clock, the messages, the user ids and the answers of
    the client were. *)
Theorem add_memory_twice_is_last
    w1 w2 (self : Bridge) st messages1 messages2 user1 user2 l d0 :
  initialized self = true ->
  heap st !! l = Some d0 ->
  let st1 :=
    snd (Mem0Bridge.add_memory w1 self messages1 user1 (Ref l) st) in
  heap (snd (Mem0Bridge.add_memory w2 self messages2 user2 (Ref l) st1))
  = heap (snd (Mem0Bridge.add_memory w2 self messages2 user2 (Ref l) st))
  /\ exists d2,
      heap (snd (Mem0Bridge.add_memory w2 self messages2 user2 (Ref l) st1))
        !! l = Some d2
      /\ dict_get "user_id" d2 = Some (VStr user2)
      /\ dict_get "timestamp" d2 = Some (VStr (now_isoformat w2)).
Proof.
  intros Hinit Hl st1.
  assert (H1 : heap st1 = <[l := dict_update d0 (injected w1 user1)]> (heap st))
    by (by apply add_memory_heap).
  rewrite (add_memory_heap w2 self st1 messages2 user2 l
             (dict_update d0 (injected w1 user1)) Hinit)
    by (rewrite H1; apply lookup_insert_eq).
  rewrite (add_memory_heap w2 self st messages2 user2 l d0 Hinit Hl).
  rewrite H1, insert_insert_eq, injected_absorbs. split; [done|].
  eexists. split; [apply lookup_insert_eq|].
  split; [apply injected_user_id|apply injected_timestamp].
Qed.

Lemma add_memory_twice_is_last_witness :
  let d0 := [("tag", VStr "x")] in
  let st := State {[ 7 := d0 ]} [] [] in
  let st1 := snd (Mem0Bridge.add_memory world_down bridge_ok VNone "alice"
                    (Ref 7) st) in
  initialized bridge_ok = true
  /\ heap st !! 7 = Some d0
  /\ heap (snd (Mem0Bridge.add_memory world_ok bridge_ok VNone "bob"
                  (Ref 7) st1))
     = heap (snd (Mem0Bridge.add_memory world_ok bridge_ok VNone "bob"
                    (Ref 7) st)).
Proof.
  intros d0 st st1. do 2 (split; [reflexivity|]).
  exact (proj1 (add_memory_twice_is_last world_down world_ok bridge_ok st
                  VNone VNone "alice" "bob" 7 d0 eq_refl eq_refl)).
Defined.

(** ** What the health check touches *)

(** X5. [health_check] is read-only: it changes no object and prints
    nothing, and its only call on the client, made when the bridge is
    initialized, is the search for ["test"] as user ["health_check"] with
    limit 1; on a bridge that is not initialized the client is not called. *)
Theorem health_check_read_only w (self : Bridge) st :
  let st' := snd (Mem0Bridge.health_check w self st) in
  heap st' = heap st
  /\ stdout st' = stdout st
  /\ calls st'
     = (calls st
        ++ (if initialized self && bool_decide (is_Some (memory self))
            then [CSearch "test" "health_check" 1%Z]
            else []))%list.
Proof.
  simpl. rewrite health_check_run.
  destruct (initialized self); simpl;
    [|by rewrite app_nil_r].
  destruct (memory self) as [cl|]; simpl.
  - by destruct (cl _) as [v|e]; [destruct (py_len v)|].
  - by rewrite app_nil_r.
Qed.

(** ** What the constructor depends on *)

Lemma built_agrees w w' cfg :
  getenv w' "OPENAI_API_KEY" = getenv w "OPENAI_API_KEY" ->
  Memory_from_config w' = Memory_from_config w ->
  built w' cfg = built w cfg.
Proof.
  intros Hkey Hmem.
  unfold built, initialization_raises, Mem0Bridge.build_mem0_config.
  by rewrite Hkey, Hmem.
Qed.

(** X6. The connectivity probe has no say in the construction: whatever
    [requests.get] returns or raises, and whether [SKIP_CONNECTIVITY_CHECK]
    is set, unset or set to anything, the constructor returns the same
    bridge. *)
Theorem connectivity_probe_is_irrelevant w env' rq cfg st :
  (forall k, k <> "SKIP_CONNECTIVITY_CHECK" -> env' !! k = environ w !! k) ->
  Mem0Bridge.__init__ (with_requests (with_environ w env') rq) cfg st
  = Mem0Bridge.__init__ w cfg st.
Proof.
  intros Henv. rewrite !init_total. f_equal. f_equal.
  apply built_agrees; [|reflexivity].
  unfold getenv; simpl. by apply Henv.
Qed.

Lemma connectivity_probe_is_irrelevant_witness :
  let env' := <[ "SKIP_CONNECTIVITY_CHECK" := "true" ]> (environ world_ok) in
  let timeout := fun _ : string =>
    @Raise Z (Exc (OtherException "ConnectTimeout") "timed out") in
  (forall k, k <> "SKIP_CONNECTIVITY_CHECK" ->
             env' !! k = environ world_ok !! k)
  /\ Mem0Bridge.__init__ (with_requests (with_environ world_ok env') timeout)
       sample_config initial_state
     = Mem0Bridge.__init__ world_ok sample_config initial_state.
Proof.
  intros env' timeout.
  assert (H : forall k, k <> "SKIP_CONNECTIVITY_CHECK" ->
                        env' !! k = environ world_ok !! k)
    by (intros k Hk; subst env'; by rewrite lookup_insert_ne).
  split; [exact H|].
  exact (connectivity_probe_is_irrelevant world_ok env' timeout sample_config
           initial_state H).
Defined.

(** X7. The constructor keeps [initialized] and the client together: the
    bridge it returns is initialized exactly when it holds a client, that
    client is the one [Memory.from_config] returned for the bridge's
    [mem0_config], and an API key set to the empty string counts as
    missing. *)
Theorem constructed_bridge_invariant w cfg st :
  exists b,
    Mem0Bridge.__init__ w cfg st = (Ok b, st)
    /\ config b = cfg
    /\ mem0_config b = Mem0Bridge.build_mem0_config w cfg
    /\ (initialized b = true <-> is_Some (memory b))
    /\ (forall cl, memory b = Some cl ->
                   Memory_from_config w (mem0_config b) = Ok cl)
    /\ (getenv w "OPENAI_API_KEY" = Some "" -> initialized b = false).
Proof.
  exists (built w cfg). split; [apply init_total|].
  unfold built, initialization_raises.
  destruct (getenv w "OPENAI_API_KEY") as [k|] eqn:Hk; simpl.
  - destruct (String.eqb k "") eqn:Ek; simpl.
    + repeat split; try done; by intros [? ?].
    + destruct (Memory_from_config w _) as [cl|e] eqn:Hcl; simpl;
        repeat split; try done; try (by intros [? ?]); eauto;
        try (by intros cl' [= <-]);
        intros [= ->]; discriminate.
  - repeat split; try done; by intros [? ?].
Qed.

(** ** The ways a process ends *)

(** [main] by the arguments and the two ports: the first port that is no
    integer literal ends it. *)
Lemma run_cases w argv :
  match argv with
  | [] | [_] =>
      run w argv = (Ok 1%Z, State ∅ [] [top_level_error "Missing command"])
  | _ :: _ :: _ =>
      match py_int w (getenv_or w "QDRANT_PORT" "6333"),
            py_int w (getenv_or w "MEMGRAPH_PORT" "7687") with
      | Ok _, Ok _ => ports_parse w
      | Raise e, _ => run w argv = (Raise e, initial_state)
      | Ok _, Raise e => run w argv = (Raise e, initial_state)
      end
  end.
Proof.
  destruct argv as [|prog [|command rest]]; try reflexivity.
  unfold run, main, read_config, bind, lift, ports_parse; simpl.
  destruct (py_int w (getenv_or w "QDRANT_PORT" "6333")); [|reflexivity].
  destruct (py_int w (getenv_or w "MEMGRAPH_PORT" "7687")); [|reflexivity].
  split; eauto.
Qed.

(** X8. A process prints at most one document, and it prints none exactly
    when there is a command and [int] raises on [QDRANT_PORT] or on
    [MEMGRAPH_PORT]; it then leaves [main] by that exception, with status 1
    and without a call on the client. Without a command the missing-command
    error is printed whatever the environment holds. *)
Theorem printed_documents w argv :
  (List.length (printed w argv) <= 1)%nat
  /\ (printed w argv = []
      <-> (2 <= List.length argv)%nat /\ ~ ports_parse w)
  /\ (printed w argv = [] ->
      status_of w argv = 1%Z
      /\ calls (snd (run w argv)) = []
      /\ exists e,
          fst (run w argv) = Raise e
          /\ (py_int w (getenv_or w "QDRANT_PORT" "6333") = Raise e
              \/ py_int w (getenv_or w "MEMGRAPH_PORT" "7687") = Raise e))
  /\ ((List.length argv < 2)%nat ->
      run w argv = (Ok 1%Z, State ∅ [] [VDict [("error", VStr "Missing command")]])).
Proof.
  pose proof (run_cases w argv) as Hc.
  unfold printed, status_of.
  destruct argv as [|prog [|command rest]]; simpl in *.
  1,2: rewrite Hc; simpl;
       (split; [lia|]);
       (split; [split; [done|intros [Hlen _]; lia]|]);
       (split; [done|]); reflexivity.
  destruct (py_int w (getenv_or w "QDRANT_PORT" "6333")) as [q|e] eqn:Hq.
  - destruct (py_int w (getenv_or w "MEMGRAPH_PORT" "7687")) as [m|e] eqn:Hm.
    + destruct (one_document w (prog :: command :: rest) Hc) as (v & Hv & _).
      unfold printed in Hv. rewrite Hv. simpl.
      split; [lia|]. split; [split; [done|by intros [_ Hn]]|].
      split; [done|]. intros Hlen. lia.
    + rewrite Hc. simpl.
      split; [lia|]. split; [split; [intros _; split; [lia|]|done]|].
      * intros [_ [m' Hm']]. congruence.
      * split; [eauto 10|]. intros Hlen. lia.
  - rewrite Hc. simpl.
    split; [lia|]. split; [split; [intros _; split; [lia|]|done]|].
    + intros [[q' Hq'] _]. congruence.
    + split; [eauto 10|]. intros Hlen. lia.
Qed.

(** X9. A port variable that is set to the empty string is not replaced by
    its default: [int] is applied to the empty string, and every command
    ends in the uncaught [ValueError], with nothing printed. *)
Theorem empty_port_is_not_defaulted w prog command rest :
  environ w !! "QDRANT_PORT" = Some "" ->
  run w (prog :: command :: rest)
  = (Raise (Exc ValueError "invalid literal for int() with base 10: ''"),
     initial_state)
  /\ printed w (prog :: command :: rest) = [].
Proof.
  intros Henv.
  pose proof (run_cases w (prog :: command :: rest)) as Hc. simpl in Hc.
  unfold getenv_or in Hc at 1. rewrite Henv in Hc. simpl in Hc.
  unfold printed. by rewrite Hc.
Qed.

Lemma empty_port_is_not_defaulted_witness :
  environ world_empty_port !! "QDRANT_PORT" = Some ""
  /\ printed world_empty_port ["mem0-bridge.py"; "health"] = [].
Proof.
  split; [reflexivity|].
  exact (proj2 (empty_port_is_not_defaulted world_empty_port "mem0-bridge.py"
                  "health" [] eq_refl)).
Defined.

(** ** The status and the shape of the document *)

Section ReturnsWith.

Context {A : Type} (P : A -> Prop).

Lemma returns_with_ret a : P a -> returns_with P (ret a).
Proof. by intros H st. Qed.

Lemma returns_with_raise e : returns_with P (raise e).
Proof. by intros st. Qed.

Lemma returns_with_bind {B} (m : M B) (k : B -> M A) :
  (forall b, returns_with P (k b)) -> returns_with P (bind m k).
Proof.
  intros Hk st. unfold bind.
  destruct (m st) as [[b|e] st1]; [apply Hk|done].
Qed.

Lemma returns_with_try_except (m : M A) (h : pyexc -> M A) :
  returns_with P m -> (forall e, returns_with P (h e)) ->
  returns_with P (try_except m h).
Proof.
  intros Hm Hh st. unfold try_except. specialize (Hm st).
  destruct (m st) as [[a|e] st1]; [done|apply Hh].
Qed.

End ReturnsWith.

Ltac returns_with :=
  repeat first
    [ apply returns_with_raise
    | apply returns_with_ret; by eexists
    | apply returns_with_try_except; [|intros ?]
    | apply returns_with_bind; intros ?
    | match goal with
      | |- returns_with _ (if ?b then _ else _) => destruct b
      end ].

(** Every operation that returns at all returns a dictionary with a boolean
    [success]. *)
Lemma operations_return_envelopes w self :
  (forall messages user_id metadata,
      returns_with (fun v => is_Some (success_of v))
        (Mem0Bridge.add_memory w self messages user_id metadata))
  /\ (forall query user_id limit,
      returns_with (fun v => is_Some (success_of v))
        (Mem0Bridge.search_memory w self query user_id limit))
  /\ (forall user_id,
      returns_with (fun v => is_Some (success_of v))
        (Mem0Bridge.get_all_memories w self user_id))
  /\ (forall memory_id data,
      returns_with (fun v => is_Some (success_of v))
        (Mem0Bridge.update_memory w self memory_id data))
  /\ (forall memory_id,
      returns_with (fun v => is_Some (success_of v))
        (Mem0Bridge.delete_memory w self memory_id))
  /\ returns_with (fun v => is_Some (success_of v))
       (Mem0Bridge.health_check w self).
Proof.
  repeat split; intros;
    unfold Mem0Bridge.add_memory, Mem0Bridge.search_memory,
      Mem0Bridge.get_all_memories, Mem0Bridge.update_memory,
      Mem0Bridge.delete_memory, Mem0Bridge.health_check;
    returns_with.
Qed.

Section PrintsLastWith.

Context (P : pyval -> Prop).

Lemma prints_last_with_raise e : prints_last_with P (raise e).
Proof. by intros st. Qed.

Lemma prints_last_with_report (m : M pyval) :
  silent m -> returns_with P m ->
  prints_last_with P (bind m (fun result => print_json result)).
Proof.
  intros Hs Hr st. unfold bind, print_json.
  specialize (Hs st). specialize (Hr st).
  destruct (m st) as [[v|e] st1]; simpl in *; [|done].
  destruct (json_unserializable v); simpl; [done|].
  exists v. by rewrite Hs.
Qed.

Lemma prints_last_with_bind {A} (m : M A) (k : A -> M unit) :
  silent m -> (forall a, prints_last_with P (k a)) ->
  prints_last_with P (bind m k).
Proof.
  intros Hm Hk st. unfold bind. specialize (Hm st).
  destruct (m st) as [[a|e] st1]; simpl in *; [|done].
  specialize (Hk a st1). destruct (k a st1) as [[[]|e] st2];
    by rewrite <- Hm.
Qed.

End PrintsLastWith.

Lemma run_command_prints_envelope w bridge argv command :
  prints_last_with (fun v => is_Some (success_of v))
    (run_command w bridge argv command).
Proof.
  destruct (operations_return_envelopes w bridge)
    as (Ha & Hs & Hg & Hu & Hd & Hh).
  unfold run_command.
  repeat first
    [ apply prints_last_with_raise
    | apply prints_last_with_report; [solve [silence]|solve [auto]]
    | apply prints_last_with_bind; [solve [silence]|intros ?]
    | match goal with
      | |- prints_last_with _ (if ?b then _ else _) => destruct b
      end ].
Qed.

(** X10. When the ports parse, the exit status and the printed document
    agree: status 0 comes with a document that has a boolean [success] field
    (which may be false), status 1 with a document that is [{error: ...}]
    and has no [success] field; there is no other status. *)
Theorem status_matches_document w argv :
  ports_parse w ->
  exists v,
    printed w argv = [v]
    /\ (status_of w argv = 0%Z /\ is_Some (success_of v)
        \/ status_of w argv = 1%Z
           /\ success_of v = None
           /\ exists msg, v = VDict [("error", VStr msg)]).
Proof.
  intros Hports. unfold printed, status_of, run.
  destruct argv as [|prog [|command rest]];
    [eexists; split; [reflexivity|right; eauto]..|].
  rewrite main_outcome by done.
  pose proof (run_command_prints_envelope w (built w (env_config w))
                (prog :: command :: rest) command initial_state) as H.
  destruct (run_command _ _ _ _ _) as [[[]|e] st1]; simpl in *.
  - destruct H as (v & Hv & Hs). exists v. auto.
  - rewrite H. eexists; split; [reflexivity|right; eauto].
Qed.

Lemma status_matches_document_witness :
  ports_parse world_down
  /\ exists v,
      printed world_down ["mem0-bridge.py"; "delete"; "m1"] = [v]
      /\ (status_of world_down ["mem0-bridge.py"; "delete"; "m1"] = 0%Z
          /\ is_Some (success_of v)
          \/ status_of world_down ["mem0-bridge.py"; "delete"; "m1"] = 1%Z
             /\ success_of v = None
             /\ exists msg, v = VDict [("error", VStr msg)]).
Proof.
  assert (H : ports_parse world_down) by (split; by eexists).
  split; [exact H|].
  exact (status_matches_document world_down
           ["mem0-bridge.py"; "delete"; "m1"] H).
Defined.

(** ** Calls on the client *)

Section Quiet.

Lemma quiet_ret {A} (a : A) : quiet (ret a).
Proof. by intros st. Qed.

Lemma quiet_raise {A} e : quiet (@raise A e).
Proof. by intros st. Qed.

Lemma quiet_lift {A} (r : res A) : quiet (lift r).
Proof. by intros st. Qed.

Lemma quiet_alloc d : quiet (alloc d).
Proof. by intros st. Qed.

Lemma quiet_deref l : quiet (deref l).
Proof. by intros st. Qed.

Lemma quiet_update_at l other : quiet (update_at l other).
Proof. by intros st. Qed.

Lemma quiet_argv_at argv i : quiet (argv_at argv i).
Proof. intros st. unfold argv_at. by destruct (argv !! i). Qed.

Lemma quiet_print_json v : quiet (print_json v).
Proof. intros st. unfold print_json. by destruct (json_unserializable v). Qed.

Lemma quiet_bind {A B} (m : M A) (k : A -> M B) :
  quiet m -> (forall a, quiet (k a)) -> quiet (bind m k).
Proof.
  intros Hm Hk st. unfold bind. specialize (Hm st).
  destruct (m st) as [[a|e] st1]; simpl in *; [|done].
  by rewrite Hk.
Qed.

Lemma quiet_try_except {A} (m : M A) (h : pyexc -> M A) :
  quiet m -> (forall e, quiet (h e)) -> quiet (try_except m h).
Proof.
  intros Hm Hh st. unfold try_except. specialize (Hm st).
  destruct (m st) as [[a|e] st1]; simpl in *; [done|].
  by rewrite Hh.
Qed.

Lemma quiet_one_call {A} (m : M A) : quiet m -> one_call m.
Proof.
  intros Hm st. exists []. rewrite Hm, app_nil_r. split; [done|simpl; lia].
Qed.

Lemma one_call_call_client m meth c : one_call (call_client m meth c).
Proof.
  intros st. destruct m as [cl|]; simpl.
  - exists [c]. split; [done|simpl; lia].
  - exists []. rewrite app_nil_r. split; [done|simpl; lia].
Qed.

(** The call comes first, and what follows is quiet. *)
Lemma one_call_then {A B} (m : M A) (k : A -> M B) :
  one_call m -> (forall a, quiet (k a)) -> one_call (bind m k).
Proof.
  intros Hm Hk st. unfold bind. destruct (Hm st) as (extra & He & Hlen).
  destruct (m st) as [[a|e] st1]; simpl in *; [|eauto].
  exists extra. by rewrite Hk.
Qed.

(** What comes first is quiet, and the call follows. *)
Lemma one_call_after {A B} (m : M A) (k : A -> M B) :
  quiet m -> (forall a, one_call (k a)) -> one_call (bind m k).
Proof.
  intros Hm Hk st. unfold bind. specialize (Hm st).
  destruct (m st) as [[a|e] st1]; simpl in *.
  - destruct (Hk a st1) as (extra & He & Hlen).
    exists extra. by rewrite He, Hm.
  - exists []. rewrite Hm, app_nil_r. split; [done|simpl; lia].
Qed.

Lemma one_call_try_except {A} (m : M A) (h : pyexc -> M A) :
  one_call m -> (forall e, quiet (h e)) -> one_call (try_except m h).
Proof.
  intros Hm Hh st. unfold try_except. destruct (Hm st) as (extra & He & Hlen).
  destruct (m st) as [[a|e] st1]; simpl in *; [eauto|].
  exists extra. by rewrite Hh.
Qed.

End Quiet.

Create HintDb quietness.
#[export] Hint Resolve quiet_ret quiet_raise quiet_lift quiet_alloc
  quiet_deref quiet_update_at quiet_argv_at quiet_print_json : quietness.

Ltac quiet :=
  repeat first
    [ apply quiet_bind; [|intros ?]
    | apply quiet_try_except; [|intros ?]
    | solve [auto with quietness]
    | match goal with
      | |- quiet (if ?b then _ else _) => destruct b
      | |- quiet (match ?x with _ => _ end) => destruct x
      end ].

Ltac one_call :=
  repeat first
    [ apply one_call_call_client
    | apply quiet_one_call; solve [quiet]
    | apply one_call_try_except; [|intros ?; solve [quiet]]
    | apply one_call_after; [solve [quiet]|intros ?]
    | apply one_call_then; [|intros ?; solve [quiet]]
    | match goal with
      | |- one_call (if ?b then _ else _) => destruct b
      end ].

Lemma operations_call_once w self :
  (forall messages user_id metadata,
      one_call (Mem0Bridge.add_memory w self messages user_id metadata))
  /\ (forall query user_id limit,
      one_call (Mem0Bridge.search_memory w self query user_id limit))
  /\ (forall user_id, one_call (Mem0Bridge.get_all_memories w self user_id))
  /\ (forall memory_id data,
      one_call (Mem0Bridge.update_memory w self memory_id data))
  /\ (forall memory_id, one_call (Mem0Bridge.delete_memory w self memory_id))
  /\ one_call (Mem0Bridge.health_check w self).
Proof.
  repeat split; intros;
    unfold Mem0Bridge.add_memory, Mem0Bridge.search_memory,
      Mem0Bridge.get_all_memories, Mem0Bridge.update_memory,
      Mem0Bridge.delete_memory, Mem0Bridge.health_check,
      Mem0Bridge.metadata_object;
    one_call.
Qed.

Lemma run_command_calls_once w bridge argv command :
  one_call (run_command w bridge argv command).
Proof.
  destruct (operations_call_once w bridge) as (Ha & Hs & Hg & Hu & Hd & Hh).
  unfold run_command.
  repeat first
    [ apply quiet_one_call; solve [quiet]
    | apply one_call_then; [solve [auto]|intros ?; solve [quiet]]
    | apply one_call_after; [solve [quiet]|intros ?]
    | match goal with
      | |- one_call (if ?b then _ else _) => destruct b
      end ].
Qed.

Lemma uninitialized_command_is_quiet w bridge argv command :
  initialized bridge = false ->
  quiet (run_command w bridge argv command).
Proof.
  intros Hinit.
  unfold run_command, Mem0Bridge.add_memory, Mem0Bridge.search_memory,
    Mem0Bridge.get_all_memories, Mem0Bridge.update_memory,
    Mem0Bridge.delete_memory, Mem0Bridge.health_check.
  rewrite Hinit. simpl. quiet.
Qed.

(** X11. A process makes at most one call on the client, whatever the
    command, the arguments and the environment are; and when the
    initialization failed it makes none, whatever the command is. *)
Theorem at_most_one_client_call w argv :
  (List.length (calls (snd (run w argv))) <= 1)%nat
  /\ (initialized (built w (env_config w)) = false ->
      calls (snd (run w argv)) = []).
Proof.
  pose proof (run_cases w argv) as Hc.
  destruct argv as [|prog [|command rest]]; simpl in Hc;
    [rewrite Hc; simpl; split; [lia|done]..|].
  destruct (py_int w (getenv_or w "QDRANT_PORT" "6333")) as [q|e];
    [|rewrite Hc; simpl; split; [lia|done]].
  destruct (py_int w (getenv_or w "MEMGRAPH_PORT" "7687")) as [m|e];
    [|rewrite Hc; simpl; split; [lia|done]].
  unfold run. rewrite main_outcome by done. split.
  - destruct (run_command_calls_once w (built w (env_config w))
                (prog :: command :: rest) command initial_state)
      as (extra & He & Hlen).
    destruct (run_command _ _ _ _ _) as [[[]|e] st1]; simpl in *;
      by rewrite He.
  - intros Hinit.
    pose proof (uninitialized_command_is_quiet w (built w (env_config w))
                  (prog :: command :: rest) command Hinit initial_state) as Hq.
    by destruct (run_command _ _ _ _ _) as [[[]|e] st1].
Qed.

(** ** Arguments of the commands *)

(** X12. The limit of [search] is read by [int] and handed over as it is:
    when [int] raises on it, the message of that exception is printed as a
    top-level error, with status 1 and no call on the client; and the
    integer [int] returns, zero and negative ones included, reaches the
    client's search unchecked. *)
Theorem search_limit_is_unchecked w prog uid q s rest :
  ports_parse w ->
  match py_int w s with
  | Raise e =>
      run w (prog :: "search" :: uid :: q :: s :: rest)
      = (Ok 1%Z, State ∅ [] [VDict [("error", VStr (exc_msg e))]])
  | Ok n =>
      forall cl,
        memory (built w (env_config w)) = Some cl ->
        calls (snd (run w (prog :: "search" :: uid :: q :: s :: rest)))
        = [CSearch q uid n]
  end.
Proof.
  intros Hports. unfold run. rewrite main_outcome by done.
  unfold run_command, argv_at, bind, ret, lift; simpl.
  destruct (py_int w s) as [n|e]; [|reflexivity].
  intros cl Hcl.
  assert (Hinit : initialized (built w (env_config w)) = true).
  { pose proof (built_memory w (env_config w)) as Hm.
    destruct (initialized (built w (env_config w))); [done|congruence]. }
  rewrite search_memory_run by done. rewrite Hcl. simpl.
  unfold print_json.
  destruct (cl (CSearch q uid n)) as [v|e]; [destruct (py_len v)|];
    simpl; try reflexivity;
    by destruct (json_unserializable _).
Qed.

Lemma search_limit_is_unchecked_witness :
  ports_parse world_ok
  /\ py_int world_ok "-5" = Ok (-5)%Z
  /\ calls (snd (run world_ok
                   ["mem0-bridge.py"; "search"; "user1"; "hello"; "-5"]))
     = [CSearch "hello" "user1" (-5)%Z]
  /\ py_int world_ok "ten"
     = Raise (Exc ValueError "invalid literal for int() with base 10: 'ten'")
  /\ run world_ok ["mem0-bridge.py"; "search"; "user1"; "hello"; "ten"]
     = (Ok 1%Z,
        State ∅ []
          [VDict [("error",
                   VStr "invalid literal for int() with base 10: 'ten'")]]).
Proof.
  assert (H : ports_parse world_ok) by (split; by eexists).
  split; [exact H|]. split; [reflexivity|]. split.
  - exact (search_limit_is_unchecked world_ok "mem0-bridge.py" "user1" "hello"
             "-5" [] H working_client eq_refl).
  - split; [reflexivity|].
    exact (search_limit_is_unchecked world_ok "mem0-bridge.py" "user1" "hello"
             "ten" [] H).
Defined.

(** X13. The dispatcher reads the arguments by position and looks at no
    more than it needs: arguments after the last one a command takes are
    ignored, and so is the program name. *)
Theorem surplus_arguments_are_ignored w prog prog' a b c rest :
  run w (prog :: "add" :: a :: b :: c :: rest) = run w [prog'; "add"; a; b; c]
  /\ run w (prog :: "search" :: a :: b :: c :: rest)
     = run w [prog'; "search"; a; b; c]
  /\ run w (prog :: "get_all" :: a :: rest) = run w [prog'; "get_all"; a]
  /\ run w (prog :: "update" :: a :: b :: rest) = run w [prog'; "update"; a; b]
  /\ run w (prog :: "delete" :: a :: rest) = run w [prog'; "delete"; a]
  /\ run w (prog :: "health" :: rest) = run w [prog'; "health"].
Proof. repeat split; reflexivity. Qed.



(** ** Commands from the command line to the client and back *)







(** ** Ports from text to number and back *)

Lemma digit_of_pretty_N_char d :
  (d < 10)%N -> digit_of (pretty_N_char d) = Some (Z.of_N d).
Proof.
  intros H.
  assert (d = 0 \/ d = 1 \/ d = 2 \/ d = 3 \/ d = 4 \/ d = 5 \/ d = 6
          \/ d = 7 \/ d = 8 \/ d = 9)%N as Hd by lia.
  by repeat (destruct Hd as [->|Hd]; [done|]); subst.
Qed.

Lemma digit_not_space c : is_Some (digit_of c) -> is_space c = false.
Proof.
  unfold digit_of, is_space. intros [d H].
  destruct (Nat.leb_spec 48 (nat_of_ascii c)); [|done].
  destruct (Nat.leb_spec (nat_of_ascii c) 57); [|done].
  destruct (Nat.leb_spec (nat_of_ascii c) 13); [lia|].
  destruct (Nat.eqb_spec (nat_of_ascii c) 32); [lia|].
  by rewrite andb_false_r.
Qed.

Lemma digit_not_sign c :
  is_Some (digit_of c) ->
  Ascii.eqb c "-"%char = false /\ Ascii.eqb c "+"%char = false.
Proof.
  unfold digit_of. intros [d H].
  destruct (Nat.leb_spec 48 (nat_of_ascii c)); [|done].
  split; apply Ascii.eqb_neq; intros ->;
    [change (nat_of_ascii "-") with 45 in *
    |change (nat_of_ascii "+") with 43 in *]; lia.
Qed.

Lemma strip_no_space l :
  Forall (fun c => is_space c = false) l -> strip l = l.
Proof.
  intros H. unfold strip.
  assert (Hd : forall l', Forall (fun c => is_space c = false) l' ->
                          drop_spaces l' = l').
  { intros [|c r] Hl; [done|]. simpl. by rewrite (Forall_inv Hl). }
  rewrite (Hd l H), (Hd (rev l)) by (by apply List.Forall_rev).
  apply rev_involutive.
Qed.

Lemma digits_value_all acc l :
  Forall (fun c => is_Some (digit_of c)) l ->
  digits_value acc true l = Some (fold_left digit_step l acc).
Proof.
  revert acc. induction l as [|c r IH]; intros acc Hl; [done|].
  inversion Hl as [|? ? [d Hd] Hr]; subst. simpl.
  rewrite Hd, IH by done. do 2 f_equal. unfold digit_step. by rewrite Hd.
Qed.

Lemma pretty_N_go_digits x s :
  Forall (fun c => is_Some (digit_of c)) (list_ascii_of_string s) ->
  Forall (fun c => is_Some (digit_of c))
    (list_ascii_of_string (pretty_N_go x s))
  /\ fold_left digit_step (list_ascii_of_string (pretty_N_go x s)) 0%Z
     = fold_left digit_step (list_ascii_of_string s) (Z.of_N x).
Proof.
  revert s. induction (N.lt_wf_0 x) as [x _ IH]; intros s Hs.
  assert (x = 0 \/ 0 < x)%N as [->|Hx] by lia.
  - by rewrite pretty_N_go_0.
  - rewrite pretty_N_go_step by done.
    assert (Hd : digit_of (pretty_N_char (x `mod` 10)) = Some (Z.of_N (x `mod` 10)))
      by (apply digit_of_pretty_N_char, N.mod_lt; lia).
    destruct (IH (x `div` 10)%N (N.div_lt x 10 Hx eq_refl)
                (String (pretty_N_char (x `mod` 10)) s)) as [Hall Hval].
    { simpl. constructor; [by eexists|done]. }
    split; [done|]. rewrite Hval. simpl. f_equal.
    unfold digit_step. rewrite Hd. simpl.
    rewrite (N.div_mod x 10) at 3 by lia. lia.
Qed.

Lemma parse_int_pretty_pos p :
  exists c r,
    list_ascii_of_string (pretty_N_go (N.pos p) "") = c :: r
    /\ Forall (fun c => is_Some (digit_of c)) (c :: r)
    /\ digits_value 0 false (c :: r) = Some (Z.pos p).
Proof.
  destruct (pretty_N_go_digits (N.pos p) "") as [Hall Hval]; [constructor|].
  simpl in Hval.
  destruct (list_ascii_of_string (pretty_N_go (N.pos p) "")) as [|c r];
    [simpl in Hval; lia|].
  exists c, r. split; [done|]. split; [done|].
  inversion Hall as [|? ? [d Hd] Hr]; subst. simpl. rewrite Hd.
  rewrite digits_value_all by done.
  simpl in Hval. unfold digit_step in Hval at 2. rewrite Hd in Hval.
  simpl in Hval. by rewrite <- Hval.
Qed.

Lemma pretty_Z_pos p : pretty (Z.pos p) = pretty_N_go (N.pos p) "".
Proof. reflexivity. Qed.

Lemma pretty_Z_neg p :
  pretty (Z.neg p) = String "-"%char (pretty_N_go (N.pos p) "").
Proof. reflexivity. Qed.

Lemma parse_int_pretty (z : Z) : parse_int (pretty z) = Some z.
Proof.
  destruct z as [|p|p]; [done|..];
    destruct (parse_int_pretty_pos p) as (c & r & Hl & Hall & Hval).
  - rewrite pretty_Z_pos. unfold parse_int. rewrite Hl.
    rewrite strip_no_space
      by (eapply Forall_impl; [exact Hall|apply digit_not_space]).
    by destruct (digit_not_sign c (Forall_inv Hall)) as [-> ->].
  - rewrite pretty_Z_neg. unfold parse_int.
    change (list_ascii_of_string (String "-"%char (pretty_N_go (N.pos p) "")))
      with ("-"%char :: list_ascii_of_string (pretty_N_go (N.pos p) "")).
    rewrite Hl.
    rewrite (strip_no_space ("-"%char :: c :: r)).
    + change (Ascii.eqb "-" "-") with true. cbv iota. by rewrite Hval.
    + constructor; [done|].
      eapply Forall_impl; [exact Hall|apply digit_not_space].
Qed.

Lemma digit_is_ascii c :
  is_Some (digit_of c) -> (nat_of_ascii c <? 128)%nat = true.
Proof.
  unfold digit_of. intros [d H].
  destruct (Nat.leb_spec 48 (nat_of_ascii c)); [|done].
  destruct (Nat.leb_spec (nat_of_ascii c) 57); [|done].
  apply Nat.ltb_lt. lia.
Qed.

Lemma pretty_Z_ascii (z : Z) :
  forallb (fun c => (nat_of_ascii c <? 128)%nat)
    (list_ascii_of_string (pretty z)) = true.
Proof.
  destruct z as [|p|p]; [done|..];
    destruct (parse_int_pretty_pos p) as (c & r & Hl & Hall & _).
  - rewrite pretty_Z_pos, Hl. apply forallb_forall. intros x Hx.
    apply digit_is_ascii. rewrite List.Forall_forall in Hall. by apply Hall.
  - rewrite pretty_Z_neg.
    change (list_ascii_of_string (String "-"%char (pretty_N_go (N.pos p) "")))
      with ("-"%char :: list_ascii_of_string (pretty_N_go (N.pos p) "")).
    rewrite Hl. apply forallb_forall. intros x [<-|Hx]; [done|].
    apply digit_is_ascii. rewrite List.Forall_forall in Hall. by apply Hall.
Qed.

(** [int] reads back the decimal text of an integer. *)
Lemma py_int_pretty w (z : Z) :
  (String.length (pretty z) <= 640)%nat -> py_int w (pretty z) = Ok z.
Proof.
  intros Hlen. unfold py_int, plain.
  apply Nat.leb_le in Hlen. by rewrite Hlen, pretty_Z_ascii, parse_int_pretty.
Qed.

(** X16. The ports are read by [int] and not checked against any range:
    with [QDRANT_PORT] and [MEMGRAPH_PORT] set to the decimal text of two
    integers, zero, negative or above 65535 as they may be (of at most 640
    characters, which [int] reads under every setting of its digit limit),
    the configuration holds exactly these integers and the URL of the
    vector store ends in the same decimal text. *)
Theorem ports_are_not_range_checked w (n m : Z) st :
  (String.length (pretty n) <= 640)%nat ->
  (String.length (pretty m) <= 640)%nat ->
  environ w !! "QDRANT_PORT" = Some (pretty n) ->
  environ w !! "MEMGRAPH_PORT" = Some (pretty m) ->
  exists cfg,
    read_config w st = (Ok cfg, st)
    /\ qdrant_port cfg = n
    /\ memgraph_port cfg = m
    /\ Mem0Bridge.qdrant_url cfg
       = "http://" ++ getenv_or w "QDRANT_HOST" "localhost" ++ ":" ++ pretty n.
Proof.
  intros Hn Hm' Hq Hm.
  assert (Hq1 : getenv_or w "QDRANT_PORT" "6333" = pretty n)
    by (unfold getenv_or; by rewrite Hq).
  assert (Hm1 : getenv_or w "MEMGRAPH_PORT" "7687" = pretty m)
    by (unfold getenv_or; by rewrite Hm).
  eexists. unfold read_config, bind, lift, ret.
  rewrite Hq1, Hm1, !py_int_pretty by done. repeat split.
Qed.

Lemma ports_are_not_range_checked_witness :
  (String.length (pretty (-1)%Z) <= 640)%nat
  /\ (String.length (pretty 70000%Z) <= 640)%nat
  /\ environ world_wide_ports !! "QDRANT_PORT" = Some (pretty (-1)%Z)
  /\ environ world_wide_ports !! "MEMGRAPH_PORT" = Some (pretty 70000%Z)
  /\ exists cfg,
      read_config world_wide_ports initial_state = (Ok cfg, initial_state)
      /\ qdrant_port cfg = (-1)%Z
      /\ memgraph_port cfg = 70000%Z
      /\ Mem0Bridge.qdrant_url cfg
         = "http://" ++ getenv_or world_wide_ports "QDRANT_HOST" "localhost"
           ++ ":" ++ pretty (-1)%Z.
Proof.
  assert (H1 : (String.length (pretty (-1)%Z) <= 640)%nat)
    by (vm_compute; lia).
  assert (H2 : (String.length (pretty 70000%Z) <= 640)%nat)
    by (vm_compute; lia).
  split; [exact H1|]. split; [exact H2|].
  do 2 (split; [reflexivity|]).
  exact (ports_are_not_range_checked world_wide_ports (-1)%Z 70000%Z
           initial_state H1 H2 eq_refl eq_refl).
Defined.
